(** * The OpenFloor GitHub agent: envelope routing and trend synthesis

    A shallow embedding of [GitHubAgent] (github-agent.ts): the envelope
    router [processEnvelope], the utterance handler [_handleTechQuery], the
    search client [_searchGitHub] with its rate limiter [_rateLimit], the
    keyword classifier [_isTechQuery] and the three report sections.

    Asynchronous code is written in a state-and-exception monad over the
    agent's mutable field [lastRequestTime], the wall clock and a log of the
    calls made.  The network, the timers and the locale-dependent parts of
    the JavaScript runtime are parameters. *)

From Stdlib Require Import ZArith List String Ascii Bool Lia QArith.
From Stdlib Require Import DecimalString Permutation Sorted.
From Stdlib Require Import Uint63 PrimFloat.
Import ListNotations.

Local Open Scope string_scope.
Local Open Scope Z_scope.

(** ** JavaScript strings and conversions *)

Module Js.

(** The line feed written [\n] in the source. *)
Definition nl : string := String "010"%char EmptyString.

(** Template-literal conversion of an integer, as in [`${index + 1}`]. *)
Definition ofZ (z : Z) : string := NilZero.string_of_int (Z.to_int z).
Definition ofNat (n : nat) : string := NilZero.string_of_uint (Nat.to_uint n).

(** [hay.includes(needle)]. *)
Fixpoint includes (hay needle : string) : bool :=
  prefix needle hay ||
  match hay with
  | EmptyString => false
  | String _ rest => includes rest needle
  end.

(** [parts.join(sep)]. *)
Fixpoint join (sep : string) (parts : list string) : string :=
  match parts with
  | [] => EmptyString
  | [p] => p
  | p :: rest => p ++ sep ++ join sep rest
  end.

(** Truthiness of a possibly null string: null and the empty string are
    falsy. *)
Definition truthy (s : option string) : bool :=
  match s with
  | Some (String _ _) => true
  | _ => false
  end.

(** [s || dflt] on a possibly null string. *)
Definition orElse (s : option string) (dflt : string) : string :=
  match s with
  | Some (String c r) => String c r
  | _ => dflt
  end.

(** [Array.prototype.some]. *)
Definition some {A} (p : A -> bool) (l : list A) : bool := existsb p l.

(** A thrown value: whether it is an [Error] instance, and its message. *)
Record Error := mkError { instanceofError : bool; message : string }.

Definition newError (msg : string) : Error := mkError true msg.

(** The [TypeError] raised by a property read on null or undefined, or by
    calling something that is not a function. *)
Definition typeError (msg : string) : Error := mkError true msg.

End Js.

(** The parts of the JavaScript runtime whose result depends on the Unicode
    tables, the locale or the date parser. *)
Class Runtime := {
  (** [String.prototype.toLowerCase] *)
  toLowerCase : string -> string;
  (** [Number.prototype.toLocaleString] *)
  toLocaleString : Z -> string;
  (** [new Date(s).getTime()] in milliseconds; [None] stands for NaN *)
  getTime : string -> option Z
}.

(** ** Search results *)

Record GitHubRepo := mkRepo {
  name : string;
  description : option string;
  stargazers_count : Z;
  forks_count : Z;
  language : option string;
  updated_at : string;
  html_url : string
}.

Record GitHubSearchResponse := mkSearchResponse {
  total_count : Z;
  items : list GitHubRepo
}.

(** ** Report sections *)

Section Analyzer.

Context {RT : Runtime}.

(** One iteration of the [forEach] of [_formatRepositoryData]. *)
Definition formatRepository (index : nat) (repo : GitHubRepo) : string :=
  let stars := toLocaleString (stargazers_count repo) in
  let forks := toLocaleString (forks_count repo) in
  let updated := substring 0 10 (updated_at repo) in
  let description := Js.orElse (description repo) "No description" in
  let description :=
    if (100 <? String.length description)%nat
    then substring 0 100 description ++ "..."
    else description in
  "**" ++ Js.ofNat (index + 1) ++ ". " ++ name repo ++ "** ("
    ++ stars ++ " ⭐, " ++ forks ++ " 🍴)" ++ Js.nl
    ++ "   Language: " ++ Js.orElse (language repo) "Unknown"
    ++ " | Updated: " ++ updated ++ Js.nl
    ++ "   Description: " ++ description ++ Js.nl
    ++ "   URL: " ++ html_url repo ++ Js.nl ++ Js.nl.

Fixpoint formatRepositories (index : nat) (repositories : list GitHubRepo)
  : string :=
  match repositories with
  | [] => EmptyString
  | repo :: rest =>
      formatRepository index repo ++ formatRepositories (S index) rest
  end.

Definition _formatRepositoryData (repositories : list GitHubRepo)
  (technology : string) : string :=
  "**Top " ++ Js.ofNat (List.length repositories) ++ " Repositories:**"
    ++ Js.nl ++ formatRepositories 0 repositories.

(** [items.reduce((sum, repo) => sum + repo.stargazers_count, 0)] and
    its sibling for forks. *)
Definition totalStars (items : list GitHubRepo) : Z :=
  fold_left (fun sum repo => sum + stargazers_count repo) items 0.

Definition totalForks (items : list GitHubRepo) : Z :=
  fold_left (fun sum repo => sum + forks_count repo) items 0.

(** [Math.round(a / n)] for a positive count [n]: the quotient rounded to
    the nearest integer, halves upwards.  The double quotient of the
    source rounds to the same integer as long as the sum stays below
    2^52. *)
Definition roundDiv (a n : Z) : Z := (2 * a + n) / (2 * n).

Definition avgStars (items : list GitHubRepo) : Z :=
  roundDiv (totalStars items) (Z.of_nat (List.length items)).

Definition adoptionLevel (totalCount : Z) : string :=
  if totalCount >? 50000 then "Very High"
  else if totalCount >? 10000 then "High"
  else if totalCount >? 1000 then "Moderate"
  else if totalCount >? 100 then "Emerging"
  else "Niche".

(** The [languages] object, as its entries in insertion order.  Language
    names are ordinary property names: not array indices, which
    [Object.entries] lists first, and not members of [Object.prototype]. *)
Fixpoint increment (lang : string) (languages : list (string * Z))
  : list (string * Z) :=
  match languages with
  | [] => [(lang, 0 + 1)]
  | (key, count) :: rest =>
      if String.eqb key lang then (key, count + 1) :: rest
      else (key, count) :: increment lang rest
  end.

Definition countLanguages (items : list GitHubRepo) : list (string * Z) :=
  fold_left
    (fun languages repo =>
       if Js.truthy (language repo)
       then increment (Js.orElse (language repo) EmptyString) languages
       else languages)
    items [].

(** [entries.sort(([,a], [,b]) => b - a)]: the sort is stable, an entry
    goes in front of the first one whose count does not exceed its own. *)
Fixpoint insertByCount (entry : string * Z) (sorted : list (string * Z))
  : list (string * Z) :=
  match sorted with
  | [] => [entry]
  | head :: rest =>
      if snd head <=? snd entry then entry :: head :: rest
      else head :: insertByCount entry rest
  end.

Definition sortByCount (entries : list (string * Z)) : list (string * Z) :=
  fold_right insertByCount [] entries.

(** The order the sort establishes. *)
Definition byCountDesc (a b : string * Z) : Prop := snd b <= snd a.

Definition topLanguages (items : list GitHubRepo) : list (string * Z) :=
  firstn 3 (sortByCount (countLanguages items)).

Definition formatLanguage (entry : string * Z) : string :=
  fst entry ++ " (" ++ Js.ofZ (snd entry) ++ ")".

Definition _analyzeTechnologyTrends (data : GitHubSearchResponse)
  (technology : string) : string :=
  let totalCount := total_count data in
  let items := items data in
  if (List.length items =? 0)%nat then EmptyString else
  "**Technology Adoption Analysis:**" ++ Js.nl
    ++ "• Total repositories: " ++ toLocaleString totalCount ++ Js.nl
    ++ "• Adoption level: " ++ adoptionLevel totalCount ++ Js.nl
    ++ "• Average stars (top repos): "
    ++ toLocaleString (avgStars items) ++ Js.nl
    ++ "• Total community engagement: "
    ++ toLocaleString (totalStars items) ++ " stars, "
    ++ toLocaleString (totalForks items) ++ " forks" ++ Js.nl
    ++ (if (0 <? List.length (countLanguages items))%nat
        then "• Popular languages: "
               ++ Js.join ", " (map formatLanguage (topLanguages items))
               ++ Js.nl
        else EmptyString)
    ++ Js.nl.

Definition msPerDay : Z := 1000 * 60 * 60 * 24.

(** [daysAgo] of one repository.  [None] when the guard
    [if (repo.updated_at)] fails, or when the date does not parse and
    every comparison with the resulting NaN is false. *)
Definition daysAgo (currentDate : Z) (repo : GitHubRepo) : option Z :=
  if Js.truthy (Some (updated_at repo)) then
    match getTime (updated_at repo) with
    | Some updatedDate => Some ((currentDate - updatedDate) / msPerDay)
    | None => None
    end
  else None.

Definition withinDays (days currentDate : Z) (repo : GitHubRepo) : bool :=
  match daysAgo currentDate repo with
  | Some d => d <=? days
  | None => false
  end.

(** The loop over the repositories with its two counters, as the pair
    [(recentUpdates, veryRecentUpdates)]. *)
Definition countUpdate (currentDate : Z) (counters : nat * nat)
  (repo : GitHubRepo) : nat * nat :=
  let (recentUpdates, veryRecentUpdates) := counters in
  let veryRecentUpdates :=
    if withinDays 30 currentDate repo
    then S veryRecentUpdates else veryRecentUpdates in
  let recentUpdates :=
    if withinDays 90 currentDate repo
    then S recentUpdates else recentUpdates in
  (recentUpdates, veryRecentUpdates).

Definition countUpdates (currentDate : Z) (repositories : list GitHubRepo)
  : nat * nat :=
  fold_left (countUpdate currentDate) repositories (0%nat, 0%nat).

Definition recentUpdates (currentDate : Z) (repositories : list GitHubRepo)
  : nat := fst (countUpdates currentDate repositories).

Definition veryRecentUpdates (currentDate : Z)
  (repositories : list GitHubRepo) : nat :=
  snd (countUpdates currentDate repositories).

(** [count / length] for a non-empty list.  The quotient is exact here;
    the source computes it in double precision, where the comparisons
    with 0.7, 0.5 and 0.3 below have the same outcome (see [Double]). *)
Definition ratio (count len : nat) : Q := Z.of_nat count # Pos.of_nat len.

Definition Qgtb (x y : Q) : bool := negb (Qle_bool x y).

Definition activityLevelOf (veryRecentRatio recentRatio : Q) : string :=
  if Qgtb veryRecentRatio (7 # 10) then "Very Active"
  else if Qgtb recentRatio (5 # 10) then "Active"
  else if Qgtb recentRatio (3 # 10) then "Moderate"
  else "Low".

Definition activityLevel (currentDate : Z) (repositories : list GitHubRepo)
  : string :=
  let len := List.length repositories in
  activityLevelOf (ratio (veryRecentUpdates currentDate repositories) len)
                  (ratio (recentUpdates currentDate repositories) len).

Definition communityHealth (level : string) : string :=
  if existsb (String.eqb level) ["Very Active"; "Active"]
  then "Strong" else "Moderate".

Definition _analyzeRecentActivity (currentDate : Z)
  (repositories : list GitHubRepo) (technology : string) : string :=
  if (List.length repositories =? 0)%nat then EmptyString else
  let len := Js.ofNat (List.length repositories) in
  let level := activityLevel currentDate repositories in
  "**Development Activity:**" ++ Js.nl
    ++ "• Recently updated (30 days): "
    ++ Js.ofNat (veryRecentUpdates currentDate repositories)
    ++ "/" ++ len ++ " repositories" ++ Js.nl
    ++ "• Active projects (90 days): "
    ++ Js.ofNat (recentUpdates currentDate repositories)
    ++ "/" ++ len ++ " repositories" ++ Js.nl
    ++ "• Overall activity level: " ++ level ++ Js.nl
    ++ "• Community health: " ++ communityHealth level
    ++ " developer engagement" ++ Js.nl ++ Js.nl.

(** [_isTechQuery]. *)
Definition techIndicators : list string :=
  [ "technology"; "framework"; "library"; "software"; "programming";
    "development"; "developer"; "code"; "github"; "open source";
    "javascript"; "python"; "react"; "nodejs"; "django"; "flask";
    "vue"; "angular"; "typescript"; "rust"; "go"; "kotlin";
    "adoption"; "popular"; "trending"; "tools"; "stack" ].

Definition _isTechQuery (query : string) : bool :=
  let queryLower := toLowerCase query in
  Js.some (fun indicator => Js.includes queryLower indicator)
          techIndicators.

End Analyzer.

(** The same quotient and comparisons in IEEE 754 binary64, as the source
    computes them. *)
Module Double.

Definition ofNat (n : nat) : float :=
  PrimFloat.of_uint63 (Uint63.of_Z (Z.of_nat n)).

Definition ratio (count len : nat) : float :=
  PrimFloat.div (ofNat count) (ofNat len).

(** The literals 0.7, 0.5 and 0.3 as the nearest doubles. *)
Definition seventenths : float := 0x1.6666666666666p-1%float.
Definition half : float := 0x1p-1%float.
Definition threetenths : float := 0x1.3333333333333p-2%float.

Definition gtb (x y : float) : bool := PrimFloat.ltb y x.

End Double.

(** Whether the double comparisons of a count out of [len] give what the
    exact ones give, and whether they do for every count out of every
    length up to [max]. *)
Definition doublesAgree (count len : nat) : bool :=
  Bool.eqb (Double.gtb (Double.ratio count len) Double.seventenths)
           (Qgtb (ratio count len) (7 # 10))
  && Bool.eqb (Double.gtb (Double.ratio count len) Double.half)
              (Qgtb (ratio count len) (5 # 10))
  && Bool.eqb (Double.gtb (Double.ratio count len) Double.threetenths)
              (Qgtb (ratio count len) (3 # 10)).

Definition doublesAgreeUpTo (max : nat) : bool :=
  forallb (fun len => forallb (fun count => doublesAgree count len)
                              (seq 0 (S len)))
          (seq 1 max).

(** ** Protocol values *)

(** The addressee of an event; either part may be missing. *)
Record To := mkTo {
  to_speakerUri : option string;
  to_serviceUrl : option string
}.

(** An element of the [tokens] array: null or undefined, on which reading
    [.value] throws, or a value with its [value] property as [join] renders
    it ([None] for a missing or null one, rendered as the empty string). *)
Inductive Token :=
| TokenNullish
| TokenObject (value : option string).

(** The [tokens] property: an array, or some other value with the number its
    [length] property reads as (0 when it has none). *)
Inductive Tokens :=
| TokensArray (elements : list Token)
| TokensOther (length : nat).

Record TextFeature := mkTextFeature { tokens : option Tokens }.
Record Features := mkFeatures { text : option TextFeature }.
Record DialogEvent := mkDialogEvent { features : option Features }.
Record Parameters := mkParameters { dialogEvent : option DialogEvent }.

Record Event := mkEvent {
  eventType : string;
  to : option To;
  parameters : option Parameters
}.

(** The protocol library's guard for utterance events. *)
Definition isUtteranceEvent (event : Event) : bool :=
  String.eqb (eventType event) "utterance".

Record Sender := mkSender {
  sender_speakerUri : string;
  sender_serviceUrl : string
}.

Record Identification := mkIdentification {
  speakerUri : string;
  serviceUrl : string;
  organization : string;
  conversationalName : string;
  synopsis : string
}.

Record Capability := mkCapability {
  keyphrases : list string;
  descriptions : list string
}.

Record ManifestOptions := mkManifest {
  identification : Identification;
  capabilities : list Capability
}.

(** The events the agent sends: the result of [createTextUtterance] and the
    [publishManifests] object literal. *)
Inductive Reply :=
| TextUtterance (from : string) (body : string) (toSpeaker : string)
| PublishManifests (toSpeaker : string)
    (servicingManifests : list ManifestOptions).

Record Envelope (E : Type) := mkEnvelope {
  schema_version : string;
  conversation_id : string;
  sender : Sender;
  events : list E
}.

Arguments mkEnvelope {E}.
Arguments schema_version {E}.
Arguments conversation_id {E}.
Arguments sender {E}.
Arguments events {E}.

(** [createGitHubAgent], with its two defaults. *)
Definition createGitHubAgent (speakerUri serviceUrl : string)
  (name organization : option string) : ManifestOptions :=
  let name :=
    match name with Some n => n | None => "GitHub Technology Agent" end in
  let organization :=
    match organization with Some o => o | None => "OpenFloor Research" end in
  mkManifest
    (mkIdentification speakerUri serviceUrl organization name
       "Technology trends specialist for analyzing GitHub repositories and development adoption")
    [ mkCapability
        [ "technology"; "github"; "framework"; "library"; "programming";
          "development"; "trends"; "adoption"; "repositories"; "open source" ]
        [ "Analyze GitHub repositories for technology adoption trends";
          "Research programming frameworks and library popularity";
          "Assess development activity and community engagement metrics" ] ].

(** ** Asynchronous computations *)

(** What the agent did to its collaborators, in order: a call of the query
    classifier, and a search request with the time it was issued at. *)
Inductive Call :=
| Classify (query : string)
| Search (time : Z) (q : string) (per_page : Z).

(** The mutable state a request runs in: the wall clock in milliseconds, the
    agent's field [lastRequestTime], and the calls made so far. *)
Record State := mkState {
  clock : Z;
  lastRequestTime : Z;
  calls : list Call
}.

Inductive Completion (A : Type) :=
| Return (a : A)
| Throw (e : Js.Error).

Arguments Return {A}.
Arguments Throw {A}.

(** An [async] function body run without interleaving: it completes
    normally or throws, and its effects on the state stay either way. *)
Definition Async (A : Type) : Type := State -> Completion A * State.

Definition ret {A} (a : A) : Async A := fun st => (Return a, st).

Definition throw {A} (e : Js.Error) : Async A := fun st => (Throw e, st).

Definition bind {A B} (c : Async A) (k : A -> Async B) : Async B :=
  fun st =>
    match c st with
    | (Return a, st') => k a st'
    | (Throw e, st') => (Throw e, st')
    end.

Definition tryCatch {A} (body : Async A) (handler : Js.Error -> Async A)
  : Async A :=
  fun st =>
    match body st with
    | (Return a, st') => (Return a, st')
    | (Throw e, st') => handler e st'
    end.

Declare Scope async_scope.
Delimit Scope async_scope with async.
Notation "x <- c ;; k" := (bind c (fun x => k))
  (at level 61, c at next level, right associativity) : async_scope.
Notation "c ;; k" := (bind c (fun _ => k))
  (at level 61, right associativity) : async_scope.
Local Open Scope async_scope.

(** The outside world of one agent process. *)
Inductive JsonBody :=
| InvalidJson (e : Js.Error)
| SearchJson (total_count : Z) (items : option (list GitHubRepo)).

Record Response := mkResponse {
  ok : bool;
  status : Z;
  body : JsonBody
}.

Inductive FetchResult :=
| Rejected (e : Js.Error)
| Resolved (response : Response).

Record World := mkWorld {
  (** how late a timer armed at a given time for a given delay fires, as
      [Date.now()] sees it; negative for a timer that fires early *)
  timerLag : Z -> Z -> Z;
  (** the outcome of a search request issued at a given time *)
  fetchResult : Z -> string -> Z -> FetchResult;
  (** how long that request takes *)
  fetchDuration : Z -> string -> Z -> nat
}.

(** ** The agent *)

Section GitHubAgent.

Context {RT : Runtime}.
Variable W : World.
(** The manifest the agent was constructed with; [this.speakerUri] and
    [this.serviceUrl] read its identification. *)
Variable manifest : ManifestOptions.

Definition this_speakerUri : string := speakerUri (identification manifest).
Definition this_serviceUrl : string := serviceUrl (identification manifest).

Definition rateLimitDelay : Z := 2000.

(** [Date.now()] *)
Definition dateNow : Async Z := fun st => (Return (clock st), st).

(** [await new Promise(resolve => setTimeout(resolve, ms))]: when the
    caller resumes, [Date.now()] has moved by the delay asked for and by
    whatever the timer was late or early. *)
Definition sleep (ms : Z) : Async unit :=
  fun st =>
    let lag := timerLag W (clock st) ms in
    (Return tt, mkState (clock st + ms + lag) (lastRequestTime st) (calls st)).

Definition getLastRequestTime : Async Z :=
  fun st => (Return (lastRequestTime st), st).

Definition setLastRequestTime (t : Z) : Async unit :=
  fun st => (Return tt, mkState (clock st) t (calls st)).

Definition record (c : Call) : Async unit :=
  fun st =>
    (Return tt, mkState (clock st) (lastRequestTime st) (calls st ++ [c])).

(** [await fetch(url, ...)] for the search URL built from [q], [sort],
    [order] and [per_page]: the request is issued now and settles after
    its duration. *)
Definition fetch (q : string) (per_page : Z) : Async Response :=
  fun st =>
    let issued := clock st in
    let st' :=
      mkState (issued + Z.of_nat (fetchDuration W issued q per_page))
              (lastRequestTime st)
              (calls st ++ [Search issued q per_page]) in
    match fetchResult W issued q per_page with
    | Rejected e => (Throw e, st')
    | Resolved response => (Return response, st')
    end.

(** [await response.json()] *)
Definition json (response : Response) : Async (Z * option (list GitHubRepo)) :=
  match body response with
  | InvalidJson e => throw e
  | SearchJson total_count items => ret (total_count, items)
  end.

Definition _rateLimit : Async unit :=
  now <- dateNow ;;
  last <- getLastRequestTime ;;
  let timeSinceLastRequest := now - last in
  let waitTime := rateLimitDelay - timeSinceLastRequest in
  (if waitTime >? 0 then sleep waitTime else ret tt) ;;
  now' <- dateNow ;;
  setLastRequestTime now'.

(** The [waitTime] a caller entering [_rateLimit] in a state computes. *)
Definition waitTimeAt (st : State) : Z :=
  rateLimitDelay - (clock st - lastRequestTime st).

Definition noRepositoriesMessage (technology : string) : string :=
  "**GitHub Technology Research for: " ++ technology ++ "**"
    ++ Js.nl ++ Js.nl ++ "No relevant repositories found.".

Definition timeoutMessage (technology : string) : string :=
  "**GitHub Technology Research for: " ++ technology ++ "**"
    ++ Js.nl ++ Js.nl
    ++ "Request timeout - GitHub may be experiencing high load. Technology data available but slower than expected.".

(** The three sections after the title, for a non-empty item list. *)
Definition trendReport (currentDate : Z) (data : GitHubSearchResponse)
  (technology : string) : string :=
  "**GitHub Technology Trends for: " ++ technology ++ "**"
    ++ Js.nl ++ Js.nl
    ++ _formatRepositoryData (items data) technology
    ++ _analyzeTechnologyTrends data technology
    ++ _analyzeRecentActivity currentDate (items data) technology.

(** The body of the [try] block of [_searchGitHub]. *)
Definition searchBody (technology : string) (maxResults : Z)
  : Async string :=
  response <- fetch technology maxResults ;;
  if negb (ok response) then
    throw (Js.newError ("GitHub API error: " ++ Js.ofZ (status response)))
  else
    data <- json response ;;
    match snd data with
    | None | Some [] => ret (noRepositoriesMessage technology)
    | Some items =>
        currentDate <- dateNow ;;
        ret (trendReport currentDate (mkSearchResponse (fst data) items)
               technology)
    end.

(** [error instanceof Error && error.message.includes('timeout')] *)
Definition isTimeout (error : Js.Error) : bool :=
  Js.instanceofError error && Js.includes (Js.message error) "timeout".

Definition _searchGitHub (technology : string) (maxResults : Z)
  : Async string :=
  _rateLimit ;;
  tryCatch (searchBody technology maxResults)
    (fun error =>
       if isTimeout error then ret (timeoutMessage technology)
       else throw error).

(** The error a search request raises inside the [try] block, if any: the
    rejection of [fetch], the error made from a status that is not ok, or
    the rejection of [response.json()]. *)
Definition requestError (result : FetchResult) : option Js.Error :=
  match result with
  | Rejected e => Some e
  | Resolved response =>
      if negb (ok response) then
        Some (Js.newError
                ("GitHub API error: " ++ Js.ofZ (status response)))
      else
        match body response with
        | InvalidJson e => Some e
        | SearchJson _ _ => None
        end
  end.

(** What [_searchGitHub] completes with, by the outcome of its request
    and the time the request settled at. *)
Definition searchCompletion (technology : string) (result : FetchResult)
  (settled : Z) : Completion string :=
  match requestError result, result with
  | Some e, _ =>
      if isTimeout e then Return (timeoutMessage technology) else Throw e
  | None, Resolved (mkResponse _ _ (SearchJson total_count (Some (r :: l)))) =>
      Return (trendReport settled (mkSearchResponse total_count (r :: l))
                technology)
  | None, _ => Return (noRepositoriesMessage technology)
  end.

(** [a?.b] *)
Definition optChain {A B} (a : option A) (b : A -> option B) : option B :=
  match a with
  | Some x => b x
  | None => None
  end.

(** [event.parameters?.dialogEvent?.features?.text?.tokens] *)
Definition tokensOf (event : Event) : option Tokens :=
  optChain (optChain (optChain (optChain (parameters event) dialogEvent)
                               features) text) tokens.

(** [...tokens?.length], 0 standing for every falsy outcome. *)
Definition tokensLength (event : Event) : nat :=
  match tokensOf event with
  | Some (TokensArray elements) => List.length elements
  | Some (TokensOther length) => length
  | None => 0
  end.

(** [token => token.value] *)
Definition tokenValue (token : Token) : Async string :=
  match token with
  | TokenNullish =>
      throw (Js.typeError "Cannot read properties of undefined (reading 'value')")
  | TokenObject (Some value) => ret value
  | TokenObject None => ret EmptyString
  end.

Fixpoint mapTokenValues (elements : list Token) : Async (list string) :=
  match elements with
  | [] => ret []
  | token :: rest =>
      value <- tokenValue token ;;
      values <- mapTokenValues rest ;;
      ret (value :: values)
  end.

(** [tokens.map((token) => token.value).join('')] *)
Definition technologyOf (event : Event) : Async string :=
  match tokensOf event with
  | Some (TokensArray elements) =>
      values <- mapTokenValues elements ;;
      ret (Js.join EmptyString values)
  | _ => throw (Js.typeError "dialogEvent.features.text.tokens.map is not a function")
  end.

Definition needTechnologyPrompt : string :=
  "🔧 I need a technology or framework name to research on GitHub!".

Definition domainMismatchPrompt : string :=
  "🔧 I specialize in technology trends. Try queries about programming frameworks, libraries, tools, or development technologies.".

Definition apology : string :=
  "🔧 I encountered an error while searching GitHub. Please try again with a different technology name.".

(** [createTextUtterance] from this agent to the inbound sender. *)
Definition replyTo (inEnvelope : Envelope Event) (body : string) : Reply :=
  TextUtterance this_speakerUri body (sender_speakerUri (sender inEnvelope)).

(** The classifier, with its call recorded. *)
Definition isTechQuery (query : string) : Async bool :=
  record (Classify query) ;;
  ret (_isTechQuery query).

(** The state after the classifier was asked about [technology]. *)
Definition classified (technology : string) (st : State) : State :=
  mkState (clock st) (lastRequestTime st)
          (calls st ++ [Classify technology]).

(** The body of the [try] block of [_handleTechQuery]. *)
Definition handleBody (event : Event) (inEnvelope : Envelope Event)
  : Async Reply :=
  if (tokensLength event =? 0)%nat then
    ret (replyTo inEnvelope needTechnologyPrompt)
  else
    technology <- technologyOf event ;;
    tech <- isTechQuery technology ;;
    if negb tech then
      ret (replyTo inEnvelope domainMismatchPrompt)
    else
      results <- _searchGitHub technology 5 ;;
      ret (replyTo inEnvelope results).

(** [_handleTechQuery].  Every path returns a reply object, so the test
    [if (responseEvent)] of the caller always passes. *)
Definition _handleTechQuery (event : Event) (inEnvelope : Envelope Event)
  : Async Reply :=
  tryCatch (handleBody event inEnvelope)
    (fun error => ret (replyTo inEnvelope apology)).

Definition eqOpt (field : option string) (mine : string) : bool :=
  match field with
  | Some s => String.eqb s mine
  | None => false
  end.

Definition addressedToMe (event : Event) : bool :=
  match to event with
  | None => true
  | Some t =>
      eqOpt (to_speakerUri t) this_speakerUri
      || eqOpt (to_serviceUrl t) this_serviceUrl
  end.

(** One iteration of the loop of [processEnvelope]: the replies pushed
    for one event. *)
Definition processEvent (inEnvelope : Envelope Event) (event : Event)
  : Async (list Reply) :=
  if addressedToMe event && isUtteranceEvent event then
    responseEvent <- _handleTechQuery event inEnvelope ;;
    ret [responseEvent]
  else if addressedToMe event && String.eqb (eventType event) "getManifests"
  then
    ret [PublishManifests (sender_speakerUri (sender inEnvelope)) [manifest]]
  else ret [].

Fixpoint processEvents (inEnvelope : Envelope Event) (pending : list Event)
  (responseEvents : list Reply) : Async (list Reply) :=
  match pending with
  | [] => ret responseEvents
  | event :: rest =>
      pushed <- processEvent inEnvelope event ;;
      processEvents inEnvelope rest (responseEvents ++ pushed)
  end.

Definition processEnvelope (inEnvelope : Envelope Event)
  : Async (Envelope Reply) :=
  responseEvents <- processEvents inEnvelope (events inEnvelope) [] ;;
  ret (mkEnvelope (schema_version inEnvelope) (conversation_id inEnvelope)
         (mkSender this_speakerUri this_serviceUrl) responseEvents).

(** Every search among the calls is for a query the classifier accepts. *)
Definition searchesAccepted (made : list Call) : Prop :=
  forall time q per_page,
    In (Search time q per_page) made -> _isTechQuery q = true.

(** The times of the searches among the calls, in order. *)
Definition searchTimes (made : list Call) : list Z :=
  flat_map (fun c => match c with
                     | Search time _ _ => [time]
                     | Classify _ => []
                     end) made.

(** The searches so far are each at least [gap] after all earlier ones,
    and none is later than [lastRequestTime]. *)
Definition pacedBy (gap : Z) (st : State) : Prop :=
  Forall (fun time => time <= lastRequestTime st) (searchTimes (calls st))
  /\ ForallOrdPairs (fun earlier later => earlier + gap <= later)
                    (searchTimes (calls st)).

(** Timers fire at most [early] before they are due. *)
Definition timersWithin (early : Z) : Prop :=
  forall armed ms, - early <= timerLag W armed ms.

(** The searches so far are each at least the minimum interval after all
    earlier ones, and none is later than [lastRequestTime]. *)
Definition paced (st : State) : Prop :=
  Forall (fun time => time <= lastRequestTime st) (searchTimes (calls st))
  /\ ForallOrdPairs (fun earlier later => earlier + rateLimitDelay <= later)
                    (searchTimes (calls st)).

End GitHubAgent.

(** ** Requests in flight at the same time

    The HTTP server hands every request to the one agent object, and an
    [async] function gives up control at each [await].  A caller of
    [_rateLimit] therefore runs in two pieces: from its entry to the timer,
    and from the firing of the timer to the request.  Other callers may run
    between the two. *)

Module Interleaving.

(** Where one caller of [_searchGitHub] stands: not yet entered, suspended
    on the timer until [wake], or past the limiter with its request issued
    at [time]. *)
Inductive Caller :=
| Arriving
| Waiting (wake : Z)
| Issued (time : Z).

Record Process := mkProcess {
  now : Z;
  last : Z;
  callers : list Caller
}.

(** The event loop lets time pass, or runs one caller up to its next
    suspension. *)
Inductive Action :=
| Tick (ms : nat)
| Resume (caller : nat).

(** One piece of [_rateLimit]: the caller's new position and the new value
    of [lastRequestTime]. *)
Definition resume (c : Caller) (now last : Z) : Caller * Z :=
  match c with
  | Arriving =>
      let timeSinceLastRequest := now - last in
      let waitTime := rateLimitDelay - timeSinceLastRequest in
      if waitTime >? 0 then (Waiting (now + waitTime), last)
      else (Issued now, now)
  | Waiting wake =>
      if wake <=? now then (Issued now, now) else (Waiting wake, last)
  | Issued time => (Issued time, last)
  end.

Fixpoint replace (i : nat) (c : Caller) (l : list Caller) : list Caller :=
  match l, i with
  | [], _ => []
  | _ :: rest, O => c :: rest
  | head :: rest, S j => head :: replace j c rest
  end.

Definition step (a : Action) (p : Process) : Process :=
  match a with
  | Tick ms => mkProcess (now p + Z.of_nat ms) (last p) (callers p)
  | Resume i =>
      match nth_error (callers p) i with
      | Some c =>
          let (c', last') := resume c (now p) (last p) in
          mkProcess (now p) last' (replace i c' (callers p))
      | None => p
      end
  end.

Definition exec (schedule : list Action) (p : Process) : Process :=
  fold_left (fun p a => step a p) schedule p.

(** The times at which the requests went out, by caller. *)
Definition issuedTimes (p : Process) : list Z :=
  flat_map (fun c => match c with Issued t => [t] | _ => [] end)
           (callers p).

(** No two requests closer together than the minimum interval. *)
Fixpoint spaced (times : list Z) : bool :=
  match times with
  | [] => true
  | t :: rest =>
      forallb (fun u => rateLimitDelay <=? Z.abs (t - u)) rest && spaced rest
  end.

(** Two requests arrive half a second apart, one second after the last
    search; both find the same [lastRequestTime]. *)
Definition twoArrivals : Process := mkProcess 5000 4000 [Arriving; Arriving].

Definition overlappingSchedule : list Action :=
  [Resume 0; Tick 500; Resume 1; Tick 500; Resume 0; Resume 1].

End Interleaving.

(** ** A runtime for the examples

    The en-US locale, letters of the ASCII range, and the ISO 8601 UTC
    timestamps of the search API ([2025-01-31T12:00:00Z]). *)

Module EnUs.

Definition lowerChar (c : ascii) : ascii :=
  let n := nat_of_ascii c in
  if ((65 <=? n) && (n <=? 90))%nat then ascii_of_nat (n + 32) else c.

Fixpoint lower (s : string) : string :=
  match s with
  | EmptyString => EmptyString
  | String c rest => String (lowerChar c) (lower rest)
  end.

(** Digits grouped by three from the right. *)
Fixpoint group (digits : list ascii) (fuel : nat) : list ascii :=
  match fuel with
  | O => digits
  | S fuel' =>
      match digits with
      | a :: b :: c :: (_ :: _) as more =>
          a :: b :: c :: ","%char :: group (skipn 3 digits) fuel'
      | _ => digits
      end
  end.

Definition grouped (n : nat) : string :=
  let digits := rev (list_ascii_of_string (Js.ofNat n)) in
  string_of_list_ascii (rev (group digits (List.length digits))).

Definition localeString (z : Z) : string :=
  if z <? 0 then "-" ++ grouped (Z.abs_nat z) else grouped (Z.abs_nat z).

Definition number (s : string) : option Z :=
  match NilZero.uint_of_string s with
  | Some u => Some (Z.of_nat (Nat.of_uint u))
  | None => None
  end.

(** Days from 1970-01-01 to a date of the proleptic Gregorian calendar. *)
Definition daysFromCivil (y m d : Z) : Z :=
  let y := if m <=? 2 then y - 1 else y in
  let era := y / 400 in
  let yoe := y - era * 400 in
  let mp := (m + 9) mod 12 in
  let doy := (153 * mp + 2) / 5 + d - 1 in
  let doe := yoe * 365 + yoe / 4 - yoe / 100 + doy in
  era * 146097 + doe - 719468.

Definition parseIso (s : string) : option Z :=
  match number (substring 0 4 s), number (substring 5 2 s),
        number (substring 8 2 s), number (substring 11 2 s),
        number (substring 14 2 s), number (substring 17 2 s) with
  | Some y, Some m, Some d, Some hh, Some mm, Some ss =>
      Some ((daysFromCivil y m d * 86400 + hh * 3600 + mm * 60 + ss) * 1000)
  | _, _, _, _, _, _ => None
  end.

#[export] Instance runtime : Runtime := {|
  toLowerCase := lower;
  toLocaleString := localeString;
  getTime := parseIso
|}.

End EnUs.

(** ** Sample inputs *)

Module Sample.

(** The agent github-server.ts creates. *)
Definition agent : ManifestOptions :=
  createGitHubAgent "tag:openfloor-research.com,2025:github-agent"
    "http://localhost:8080" (Some "GitHub Technology Analyst")
    (Some "OpenFloor Demo Corp").

Definition user : Sender := mkSender "tag:example.com,2025:user" "http://localhost:3000".

(** An utterance event carrying the given tokens. *)
Definition utterance (to : option To) (words : list string) : Event :=
  mkEvent "utterance" to
    (Some (mkParameters (Some (mkDialogEvent (Some (mkFeatures (Some
       (mkTextFeature (Some (TokensArray
          (map (fun w => TokenObject (Some w)) words))))))))))).

(** An utterance event whose dialog event has no features. *)
Definition silent : Event :=
  mkEvent "utterance" None
    (Some (mkParameters (Some (mkDialogEvent None)))).

(** An utterance event whose [tokens] is a string, not an array. *)
Definition malformed : Event :=
  mkEvent "utterance" None
    (Some (mkParameters (Some (mkDialogEvent (Some (mkFeatures (Some
       (mkTextFeature (Some (TokensOther 4)))))))))).

Definition envelope (evs : list Event) : Envelope Event :=
  mkEnvelope "1.0.0" "conversation-42" user evs.

(** A world in which every search request has the same outcome, timers
    fire on time and a request takes 150 ms. *)
Definition answering (result : FetchResult) : World :=
  mkWorld (fun _ _ => 0) (fun _ _ _ => result) (fun _ _ _ => 150%nat).

Definition found (total_count : Z) (items : list GitHubRepo) : FetchResult :=
  Resolved (mkResponse true 200 (SearchJson total_count (Some items))).

(** A world in which the search request is rejected with a timeout. *)
Definition timingOut : World :=
  answering (Rejected (Js.newError "network timeout")).

(** A world in which the connection is refused. *)
Definition refusing : World :=
  answering (Rejected (Js.newError "connect ECONNREFUSED")).

(** A state long after the last search, with nothing recorded. *)
Definition idle : State := mkState 1738324800000 0 [].

Definition repo (name : string) (stars : Z) (language : string)
  (updated_at : string) : GitHubRepo :=
  mkRepo name (Some "A sample repository") stars 10 (Some language)
         updated_at ("https://github.com/sample/" ++ name).

(** Three items with 100, 200 and 300 stars in Go, Go and Rust. *)
Definition synthetic : list GitHubRepo :=
  [ repo "alpha" 100 "Go" "2025-01-30T08:00:00Z";
    repo "beta" 200 "Go" "2024-12-01T08:00:00Z";
    repo "gamma" 300 "Rust" "2023-06-15T08:00:00Z" ].

(** Ten items, seven of them updated in the last 30 days. *)
Definition seventyPercent : list GitHubRepo :=
  (repeat (repo "fresh" 5 "Go" "2025-01-20T00:00:00Z") 7
   ++ repeat (repo "stale" 5 "Go" "2020-01-01T00:00:00Z") 3)%list.

Definition rustQuery : Event := utterance None ["Rust"].

Definition cookingQuery : Event := utterance None ["cooking"; " recipes"].

(** An utterance addressed by service URL, with another agent's speaker
    URI. *)
Definition byServiceUrl : Event :=
  utterance (Some (mkTo (Some "tag:example.com,2025:other-agent")
                        (Some "http://localhost:8080")))
            ["python"].

(** Noon UTC on 31 January 2025. *)
Definition noon : Z := 1738324800000.

End Sample.

(** ** Notions the further properties are stated with *)

Section Notions.

Context {RT : Runtime}.

(** The description as [_formatRepositoryData] prints it. *)
Definition displayedDescription (repo : GitHubRepo) : string :=
  let description := Js.orElse (description repo) "No description" in
  if (100 <? String.length description)%nat
  then substring 0 100 description ++ "..."
  else description.

(** Updated within [days] days of now by elapsed time, as the words
    "within 30 days" read: the age is at most [days] times 24 hours. *)
Definition updatedWithin (days currentDate : Z) (repo : GitHubRepo) : bool :=
  if Js.truthy (Some (updated_at repo)) then
    match getTime (updated_at repo) with
    | Some updatedDate => currentDate - updatedDate <=? days * msPerDay
    | None => false
    end
  else false.

(** Whether a repository's [language] is the given name. *)
Definition hasLanguage (lang : string) (repo : GitHubRepo) : bool :=
  match language repo with
  | Some l => String.eqb l lang
  | None => false
  end.

(** How many of the items have the given language. *)
Definition occurrences (lang : string) (items : list GitHubRepo) : Z :=
  Z.of_nat (List.length (filter (hasLanguage lang) items)).

(** The names every plain object inherits from [Object.prototype]: read as
    [languages[name]] they give a function or the prototype, not a
    count. *)
Definition prototypeMembers : list string :=
  [ "constructor"; "toString"; "toLocaleString"; "valueOf";
    "hasOwnProperty"; "isPrototypeOf"; "propertyIsEnumerable"; "__proto__";
    "__defineGetter__"; "__defineSetter__"; "__lookupGetter__";
    "__lookupSetter__" ].

Definition isDigit (c : ascii) : bool :=
  let n := nat_of_ascii c in ((48 <=? n) && (n <=? 57))%nat.

Fixpoint allDigits (s : string) : bool :=
  match s with
  | EmptyString => true
  | String c rest => isDigit c && allDigits rest
  end.

(** A language name that is an ordinary property name of the [languages]
    object: not inherited from [Object.prototype], and not written in
    digits only, as the array indices are that [Object.entries] lists
    before the other names. *)
Definition ordinaryName (lang : string) : bool :=
  negb (existsb (String.eqb lang) prototypeMembers) && negb (allDigits lang).

(** Every language among the items is empty, missing or an ordinary
    name. *)
Definition ordinaryLanguages (items : list GitHubRepo) : Prop :=
  Forall (fun repo =>
            match language repo with
            | Some lang => lang = EmptyString \/ ordinaryName lang = true
            | None => True
            end) items.

(** A text of ASCII characters only, for which the characters of the
    embedded string are the UTF-16 units [length] and [substring] of the
    source count. *)
Definition asciiText (text : string) : Prop :=
  Forall (fun c => (nat_of_ascii c < 128)%nat) (list_ascii_of_string text).

(** [languages[lang] || 0] *)
Fixpoint countFor (lang : string) (languages : list (string * Z)) : Z :=
  match languages with
  | [] => 0
  | (key, count) :: rest =>
      if String.eqb key lang then count else countFor lang rest
  end.

(** [needle] occurs in [hay]. *)
Definition occursIn (needle hay : string) : Prop :=
  exists before after, hay = before ++ needle ++ after.

(** An event the loop of [processEnvelope] answers. *)
Definition answerable (manifest : ManifestOptions) (event : Event) : bool :=
  addressedToMe manifest event
  && (isUtteranceEvent event
      || String.eqb (eventType event) "getManifests").

(** The [tokens] of an event cannot be mapped: the property is not an
    array, or an element of the array is null or undefined. *)
Definition malformedTokens (event : Event) : Prop :=
  match tokensOf event with
  | Some (TokensArray elements) => In TokenNullish elements
  | Some (TokensOther _) => True
  | None => False
  end.

(** The texts the handler answers with. *)
Definition handlerText (text : string) : Prop :=
  text = needTechnologyPrompt
  \/ text = domainMismatchPrompt
  \/ text = apology
  \/ exists technology,
       text = timeoutMessage technology
       \/ text = noRepositoriesMessage technology
       \/ exists currentDate total_count repo rest,
            text = trendReport currentDate
                     (mkSearchResponse total_count (repo :: rest)) technology.

(** A reply is a text utterance of the agent to the sender of the inbound
    envelope. *)
Definition utteranceToSender (manifest : ManifestOptions)
  (inEnvelope : Envelope Event) (reply : Reply) : Prop :=
  exists text, reply = replyTo manifest inEnvelope text.

End Notions.

(** ** The HTTP endpoint (github-server.ts) *)

(** The result of [validateAndParsePayload]: not valid, with its errors, or
    valid, with the envelope of the payload. *)
Inductive Validation :=
| Invalid (errors : list string)
| Valid (openFloor : Envelope Event).

(** What [res.json] is given. *)
Inductive Json :=
| InvalidPayload (error : string) (details : list string)
| ServerError (error : string) (message : string)
| OpenFloorPayload (openFloor : Envelope Reply).

Record HttpResponse := mkHttpResponse {
  statusCode : Z;
  json_body : Json
}.

Section Server.

Context {RT : Runtime}.
Variable W : World.
(** [process.env.SERVICE_URL] *)
Variable SERVICE_URL : option string.

Definition githubAgent : ManifestOptions :=
  createGitHubAgent "tag:openfloor-research.com,2025:github-agent"
    (Js.orElse SERVICE_URL "http://localhost:8080")
    (Some "GitHub Technology Analyst") (Some "OpenFloor Demo Corp").

(** The handler of [POST /], given how [validateAndParsePayload] completed
    on the request body.  The serialization of the outbound envelope
    ([toPayload], [toObject]) is taken to return. *)
Definition postRoot (validated : Completion Validation) : Async HttpResponse :=
  tryCatch
    (match validated with
     | Throw e => throw e
     | Return (Invalid errors) =>
         ret (mkHttpResponse 400
                (InvalidPayload "Invalid OpenFloor payload" errors))
     | Return (Valid inEnvelope) =>
         outEnvelope <- processEnvelope W githubAgent inEnvelope ;;
         ret (mkHttpResponse 200 (OpenFloorPayload outEnvelope))
     end)
    (fun error =>
       ret (mkHttpResponse 500
              (ServerError "Internal server error"
                 (if Js.instanceofError error then Js.message error
                  else "Unknown error")))).

End Server.

(** ** More sample inputs *)

Module MoreSamples.

(** Three items updated in the last days before [Sample.noon]. *)
Definition fresh : list GitHubRepo :=
  repeat (Sample.repo "fresh" 40 "Rust" "2025-01-25T09:30:00Z") 3.


(** An item updated 30 days and 23 hours before [Sample.noon]. *)
Definition almost31 : GitHubRepo :=
  Sample.repo "edge" 1 "Go" "2024-12-31T13:00:00Z".

(** An item with a description of 121 ASCII characters. *)
Definition verbose : GitHubRepo :=
  mkRepo "verbose"
    (Some "A framework for building composable, type-safe and observable data pipelines that run on one laptop or on a large cluster")
    12 3 (Some "Go") "2025-01-30T08:00:00Z"
    "https://github.com/sample/verbose".

(** A world in which the search is answered with status 403. *)
Definition forbidding : World :=
  Sample.answering
    (Resolved (mkResponse false 403 (SearchJson 0 None))).

(** An utterance whose second token is null. *)
Definition nullToken : Event :=
  mkEvent "utterance" None
    (Some (mkParameters (Some (mkDialogEvent (Some (mkFeatures (Some
       (mkTextFeature (Some (TokensArray
          [TokenObject (Some "rust"); TokenNullish])))))))))).

(** Ten items: seven updated six days before [Sample.noon], one updated 30
    days and 23 hours before it, two years old. *)
Definition seventyByAge : list GitHubRepo :=
  (repeat (Sample.repo "fresh" 40 "Rust" "2025-01-25T09:30:00Z") 7
   ++ [almost31]
   ++ repeat (Sample.repo "old" 7 "C" "2019-05-01T00:00:00Z") 2)%list.

(** A world whose timers fire 1 ms early, in which every search finds the
    three sample items. *)
Definition earlyTimers : World :=
  mkWorld (fun _ _ => -1)
          (fun _ _ _ => Sample.found 12000 Sample.synthetic)
          (fun _ _ _ => 150%nat).

End MoreSamples.

(** * Properties *)

(** ** Strings *)

Lemma append_assoc (a b c : string) : (a ++ b) ++ c = a ++ b ++ c.
Proof. induction a as [|x a IH]; simpl; [reflexivity | now rewrite IH]. Qed.

Lemma includes_nil_needle hay : Js.includes hay EmptyString = true.
Proof. destruct hay; reflexivity. Qed.

Lemma includes_cons c hay needle :
  Js.includes (String c hay) needle
  = prefix needle (String c hay) || Js.includes hay needle.
Proof. reflexivity. Qed.

(** ** The adoption and activity analysis *)

Section AnalyzerFacts.

Context {RT : Runtime}.

Lemma roundDiv_nearest a n :
  0 < n ->
  2 * n * roundDiv a n <= 2 * a + n < 2 * n * (roundDiv a n + 1).
Proof.
  intros Hn. unfold roundDiv.
  pose proof (Z.mul_div_le (2 * a + n) (2 * n) ltac:(lia)).
  pose proof (Z.mul_succ_div_gt (2 * a + n) (2 * n) ltac:(lia)).
  lia.
Qed.

Lemma roundDiv_exact q n : 0 < n -> roundDiv (q * n) n = q.
Proof.
  intros Hn. unfold roundDiv.
  symmetry. apply Z.div_unique with (r := n); lia.
Qed.

Lemma fold_left_sum (f : GitHubRepo -> Z) l acc :
  fold_left (fun sum repo => sum + f repo) l acc
  = acc + fold_left (fun sum repo => sum + f repo) l 0.
Proof.
  revert acc. induction l as [|r l IH]; intros acc; simpl.
  - lia.
  - rewrite IH, (IH (f r)). lia.
Qed.

Lemma totalStars_cons r l :
  totalStars (r :: l) = stargazers_count r + totalStars l.
Proof. unfold totalStars. simpl. now rewrite fold_left_sum. Qed.

(** C3: the adoption level of a match count is decided by the strict
    thresholds 50000, 10000, 1000 and 100, tried in that order; 50000 is
    High and 50001 is Very High.  The adoption section of a non-empty
    result prints exactly this level. *)
Theorem adoption_level_thresholds (totalCount : Z) :
  (adoptionLevel totalCount = "Very High" <-> totalCount > 50000)
  /\ (adoptionLevel totalCount = "High"
      <-> ~ totalCount > 50000 /\ totalCount > 10000)
  /\ (adoptionLevel totalCount = "Moderate"
      <-> ~ totalCount > 10000 /\ totalCount > 1000)
  /\ (adoptionLevel totalCount = "Emerging"
      <-> ~ totalCount > 1000 /\ totalCount > 100)
  /\ (adoptionLevel totalCount = "Niche" <-> ~ totalCount > 100)
  /\ adoptionLevel 50000 = "High"
  /\ adoptionLevel 50001 = "Very High"
  /\ forall r rest technology, exists before after,
       _analyzeTechnologyTrends (mkSearchResponse totalCount (r :: rest))
         technology
       = before ++ "• Adoption level: " ++ adoptionLevel totalCount
           ++ Js.nl ++ after.
Proof.
  unfold adoptionLevel.
  repeat split;
    try (destruct (Z.gtb_spec totalCount 50000);
         destruct (Z.gtb_spec totalCount 10000);
         destruct (Z.gtb_spec totalCount 1000);
         destruct (Z.gtb_spec totalCount 100);
         try lia; try discriminate; auto; lia).
  intros r rest technology.
  exists ("**Technology Adoption Analysis:**" ++ Js.nl
          ++ "• Total repositories: " ++ toLocaleString totalCount ++ Js.nl).
  eexists.
  unfold _analyzeTechnologyTrends.
  cbn [total_count items List.length Nat.eqb].
  fold (adoptionLevel totalCount).
  rewrite !append_assoc. reflexivity.
Qed.

(** *** Activity *)

Lemma Qgtb_spec x y : reflect (y < x)%Q (Qgtb x y).
Proof.
  unfold Qgtb. destruct (Qle_bool x y) eqn:E; constructor.
  - apply Qle_not_lt. now apply Qle_bool_iff.
  - apply Qnot_le_lt. intros H. apply Qle_bool_iff in H. congruence.
Qed.

Lemma Zpos_of_nat n : n <> 0%nat -> Z.pos (Pos.of_nat n) = Z.of_nat n.
Proof.
  intros Hn. rewrite <- positive_nat_Z. now rewrite Nat2Pos.id.
Qed.

(** For every page the search API can return (at most 100 items), the
    double-precision comparisons of the source decide as the exact ones. *)
Lemma doubles_agree_on_a_page : doublesAgreeUpTo 100 = true.
Proof. vm_compute. reflexivity. Qed.

(** A ratio exceeds [a/b] exactly when the cross products say so. *)
Lemma ratio_exceeds (a : Z) (b : positive) (count len : nat) :
  len <> 0%nat ->
  ((a # b < ratio count len)%Q
   <-> a * Z.of_nat len < Z.of_nat count * Z.pos b).
Proof.
  intros Hlen. unfold ratio, Qlt. cbn [Qnum Qden].
  now rewrite Zpos_of_nat.
Qed.

Lemma countUpdates_from now l r0 v0 :
  fold_left (countUpdate now) l (r0, v0)
  = ((r0 + List.length (filter (withinDays 90 now) l))%nat,
     (v0 + List.length (filter (withinDays 30 now) l))%nat).
Proof.
  revert r0 v0. induction l as [|repo l IH]; intros r0 v0; simpl.
  - f_equal; lia.
  - destruct (withinDays 30 now repo), (withinDays 90 now repo);
      rewrite IH; simpl; f_equal; lia.
Qed.

Lemma recentUpdates_filter now l :
  recentUpdates now l = List.length (filter (withinDays 90 now) l).
Proof.
  unfold recentUpdates, countUpdates. now rewrite countUpdates_from.
Qed.

Lemma veryRecentUpdates_filter now l :
  veryRecentUpdates now l = List.length (filter (withinDays 30 now) l).
Proof.
  unfold veryRecentUpdates, countUpdates. now rewrite countUpdates_from.
Qed.

(** The windows are nested. *)
Lemma withinDays_nested now repo :
  withinDays 30 now repo = true -> withinDays 90 now repo = true.
Proof.
  unfold withinDays. destruct (daysAgo now repo); [|discriminate].
  rewrite !Z.leb_le. lia.
Qed.

Lemma filter_length_mono {A} (p q : A -> bool) l :
  (forall x, p x = true -> q x = true) ->
  (List.length (filter p l) <= List.length (filter q l))%nat.
Proof.
  intros Hpq. induction l as [|x l IH]; simpl; [lia|].
  destruct (p x) eqn:Hp.
  - rewrite (Hpq x Hp). simpl. lia.
  - destruct (q x); simpl; lia.
Qed.

Lemma filter_length_le {A} (p : A -> bool) l :
  (List.length (filter p l) <= List.length l)%nat.
Proof.
  induction l as [|x l IH]; simpl; [lia|]. destruct (p x); simpl; lia.
Qed.

(** The level by the two ratios, the counters as the sizes of the two
    windows, and the nesting of the windows. *)
Lemma activity_level_cases (currentDate : Z)
  (repositories : list GitHubRepo) :
  repositories <> [] ->
  let len := List.length repositories in
  let veryRecent := veryRecentUpdates currentDate repositories in
  let recent := recentUpdates currentDate repositories in
  let level := activityLevel currentDate repositories in
  (level = "Very Active" <-> (7 # 10 < ratio veryRecent len)%Q)
  /\ (level = "Active"
      <-> ~ (7 # 10 < ratio veryRecent len)%Q
          /\ (5 # 10 < ratio recent len)%Q)
  /\ (level = "Moderate"
      <-> ~ (7 # 10 < ratio veryRecent len)%Q
          /\ ~ (5 # 10 < ratio recent len)%Q
          /\ (3 # 10 < ratio recent len)%Q)
  /\ (level = "Low"
      <-> ~ (7 # 10 < ratio veryRecent len)%Q
          /\ ~ (5 # 10 < ratio recent len)%Q
          /\ ~ (3 # 10 < ratio recent len)%Q)
  /\ veryRecent
     = List.length (filter (withinDays 30 currentDate) repositories)
  /\ recent
     = List.length (filter (withinDays 90 currentDate) repositories)
  /\ (forall repo, withinDays 30 currentDate repo = true ->
                   withinDays 90 currentDate repo = true)
  /\ (veryRecent <= recent <= len)%nat
  /\ ((10 * veryRecent = 7 * len)%nat -> level <> "Very Active").
Proof.
  intros Hne len veryRecent recent level.
  assert (Hlen : len <> 0%nat)
    by (subst len; destruct repositories; simpl; congruence).
  assert (Hlevel : level = activityLevelOf (ratio veryRecent len)
                                           (ratio recent len))
    by reflexivity.
  unfold activityLevelOf in Hlevel.
  destruct (Qgtb_spec (ratio veryRecent len) (7 # 10)) as [V|V];
    destruct (Qgtb_spec (ratio recent len) (5 # 10)) as [A|A];
    destruct (Qgtb_spec (ratio recent len) (3 # 10)) as [M|M];
    rewrite Hlevel;
    (repeat split;
     [ try discriminate; tauto .. | | | | | | ]);
    try apply veryRecentUpdates_filter;
    try apply recentUpdates_filter;
    try apply withinDays_nested;
    try (subst veryRecent recent;
         rewrite veryRecentUpdates_filter, recentUpdates_filter;
         apply filter_length_mono, withinDays_nested);
    try (subst recent len; rewrite recentUpdates_filter;
         apply filter_length_le);
    try discriminate;
    intros Heq _; apply (ratio_exceeds 7 10 veryRecent len Hlen) in V; lia.
Qed.

(** What the two windows are: an item is counted in the window of [days]
    days when its [updated_at] is not empty and parses, and fewer than
    [days] + 1 whole days lie between that time and now. *)
Lemma withinDays_age days currentDate repo :
  withinDays days currentDate repo = true
  <-> exists t,
        updated_at repo <> EmptyString
        /\ getTime (updated_at repo) = Some t
        /\ currentDate - t < (days + 1) * msPerDay.
Proof.
  assert (Hday : 0 < msPerDay) by reflexivity.
  unfold withinDays, daysAgo.
  destruct (updated_at repo) as [|c rest] eqn:Hdate; cbn [Js.truthy].
  - split; [discriminate|]. intros (t & Hne & _). congruence.
  - destruct (getTime (String c rest)) as [t|].
    + rewrite Z.leb_le.
      pose proof (Z.mul_div_le (currentDate - t) msPerDay Hday).
      pose proof (Z.mul_succ_div_gt (currentDate - t) msPerDay Hday).
      generalize dependent msPerDay. intros D HD Hle Hgt. split.
      * intros Hq. exists t. repeat split; [discriminate|nia].
      * intros (t' & _ & Ht & Hage). injection Ht as <-. nia.
    + split; [discriminate|]. intros (t & _ & Ht & _). discriminate Ht.
Qed.

(** C4, as the code has it: for a non-empty item list the activity level
    is Very Active iff the fraction of items in the 30-day window exceeds
    0.7, else Active iff the fraction in the 90-day window exceeds 0.5, else
    Moderate iff that fraction exceeds 0.3, else Low; an item is in the
    window of N days when the whole days since its update, the floor of
    its age in days, are at most N, that is when it has a usable date and
    its age is under N + 1 days; every item in the 30-day window is in the
    90-day window; and a list with exactly 70% of its items in the 30-day
    window is not Very Active. *)
Theorem activity_level_thresholds (currentDate : Z)
  (repositories : list GitHubRepo) :
  repositories <> [] ->
  let len := List.length repositories in
  let veryRecent := veryRecentUpdates currentDate repositories in
  let recent := recentUpdates currentDate repositories in
  let level := activityLevel currentDate repositories in
  (level = "Very Active" <-> (7 # 10 < ratio veryRecent len)%Q)
  /\ (level = "Active"
      <-> ~ (7 # 10 < ratio veryRecent len)%Q
          /\ (5 # 10 < ratio recent len)%Q)
  /\ (level = "Moderate"
      <-> ~ (7 # 10 < ratio veryRecent len)%Q
          /\ ~ (5 # 10 < ratio recent len)%Q
          /\ (3 # 10 < ratio recent len)%Q)
  /\ (level = "Low"
      <-> ~ (7 # 10 < ratio veryRecent len)%Q
          /\ ~ (5 # 10 < ratio recent len)%Q
          /\ ~ (3 # 10 < ratio recent len)%Q)
  /\ veryRecent
     = List.length (filter (withinDays 30 currentDate) repositories)
  /\ recent
     = List.length (filter (withinDays 90 currentDate) repositories)
  /\ (forall repo, withinDays 30 currentDate repo = true ->
                   withinDays 90 currentDate repo = true)
  /\ (veryRecent <= recent <= len)%nat
  /\ ((10 * veryRecent = 7 * len)%nat -> level <> "Very Active")
  /\ (forall repo,
        withinDays 30 currentDate repo = true
        <-> exists t,
              updated_at repo <> EmptyString
              /\ getTime (updated_at repo) = Some t
              /\ currentDate - t < 31 * msPerDay)
  /\ (forall repo,
        withinDays 90 currentDate repo = true
        <-> exists t,
              updated_at repo <> EmptyString
              /\ getTime (updated_at repo) = Some t
              /\ currentDate - t < 91 * msPerDay).
Proof.
  intros Hne len veryRecent recent level.
  pose proof (activity_level_cases currentDate repositories Hne) as H.
  cbv zeta in H. fold len veryRecent recent level in H.
  destruct H as (H1 & H2 & H3 & H4 & H5 & H6 & H7 & H8 & H9).
  repeat (split; [assumption|]).
  split; intros repo.
  - exact (withinDays_age 30 currentDate repo).
  - exact (withinDays_age 90 currentDate repo).
Qed.

(** *** Languages and averages *)

Lemma insertByCount_perm e l : Permutation (e :: l) (insertByCount e l).
Proof.
  induction l as [|h l IH]; simpl; [reflexivity|].
  destruct (snd h <=? snd e); [reflexivity|].
  rewrite perm_swap. now constructor.
Qed.

Lemma sortByCount_perm l : Permutation l (sortByCount l).
Proof.
  induction l as [|e l IH]; simpl; [constructor|].
  rewrite <- insertByCount_perm. now constructor.
Qed.

Lemma insertByCount_sorted e l :
  StronglySorted byCountDesc l ->
  StronglySorted byCountDesc (insertByCount e l).
Proof.
  induction 1 as [|h l Hs IH Hh]; simpl.
  - repeat constructor.
  - destruct (Z.leb_spec (snd h) (snd e)) as [Hle|Hgt].
    + constructor; [now constructor|].
      constructor; [exact Hle|].
      eapply Forall_impl; [|exact Hh].
      unfold byCountDesc. intros x Hx. lia.
    + constructor; [exact IH|].
      apply (Permutation_Forall (insertByCount_perm e l)).
      constructor; [unfold byCountDesc; lia | exact Hh].
Qed.

(** The sort orders the entries by descending count... *)
Lemma sortByCount_sorted l : StronglySorted byCountDesc (sortByCount l).
Proof.
  induction l as [|e l IH]; simpl; [constructor|].
  now apply insertByCount_sorted.
Qed.

Lemma insertByCount_stable c e l :
  filter (fun x => snd x =? c) (insertByCount e l)
  = filter (fun x => snd x =? c) (e :: l).
Proof.
  induction l as [|h l IH]; [reflexivity|].
  cbn [insertByCount].
  destruct (Z.leb_spec (snd h) (snd e)) as [Hle|Hgt]; [reflexivity|].
  cbn [filter] in *. rewrite IH.
  destruct (Z.eqb_spec (snd e) c), (Z.eqb_spec (snd h) c);
    try reflexivity; lia.
Qed.

(** ... and is stable: entries of equal count stay in the order of first
    encounter. *)
Lemma sortByCount_stable c l :
  filter (fun x => snd x =? c) (sortByCount l)
  = filter (fun x => snd x =? c) l.
Proof.
  induction l as [|e l IH]; [reflexivity|].
  cbn [sortByCount fold_right]. fold (sortByCount l).
  rewrite insertByCount_stable. cbn [filter]. now rewrite IH.
Qed.

(** C9: for three items with 100, 200 and 300 stars, languages Go, Go and
    Rust and a total count of 12000, the analysis gives adoption level
    High, average stars 200 (600 stars over 3 items, rounded) and the
    language ranking Go (2), Rust (1), and prints them in the adoption
    section. *)
Theorem synthetic_result_report (synthetic : list GitHubRepo)
  (technology : string) :
  map stargazers_count synthetic = [100; 200; 300] ->
  map language synthetic = [Some "Go"; Some "Go"; Some "Rust"] ->
  let data := mkSearchResponse 12000 synthetic in
  adoptionLevel (total_count data) = "High"
  /\ totalStars synthetic = 600
  /\ avgStars synthetic = 200
  /\ countLanguages synthetic = [("Go", 2); ("Rust", 1)]
  /\ topLanguages synthetic = [("Go", 2); ("Rust", 1)]
  /\ map formatLanguage (topLanguages synthetic) = ["Go (2)"; "Rust (1)"]
  /\ _analyzeTechnologyTrends data technology
     = "**Technology Adoption Analysis:**" ++ Js.nl
         ++ "• Total repositories: " ++ toLocaleString 12000 ++ Js.nl
         ++ "• Adoption level: High" ++ Js.nl
         ++ "• Average stars (top repos): " ++ toLocaleString 200 ++ Js.nl
         ++ "• Total community engagement: " ++ toLocaleString 600
         ++ " stars, " ++ toLocaleString (totalForks synthetic)
         ++ " forks" ++ Js.nl
         ++ "• Popular languages: Go (2), Rust (1)" ++ Js.nl ++ Js.nl.
Proof.
  intros Hstars Hlangs data.
  destruct synthetic as [|a [|b [|c [|d rest]]]]; try discriminate.
  cbn [map] in Hstars, Hlangs.
  injection Hstars as Ha Hb Hc. injection Hlangs as La Lb Lc.
  assert (Htotal : totalStars [a; b; c] = 600)
    by (unfold totalStars; simpl; lia).
  assert (Havg : avgStars [a; b; c] = 200)
    by (unfold avgStars; rewrite Htotal; reflexivity).
  assert (Hcount : countLanguages [a; b; c] = [("Go", 2); ("Rust", 1)])
    by (unfold countLanguages; simpl; rewrite La, Lb, Lc; reflexivity).
  assert (Htop : topLanguages [a; b; c] = [("Go", 2); ("Rust", 1)])
    by (unfold topLanguages; rewrite Hcount; reflexivity).
  repeat split; try assumption; try reflexivity.
  - rewrite Htop. reflexivity.
  - unfold _analyzeTechnologyTrends, data.
    cbn [total_count items List.length Nat.eqb].
    rewrite Havg, Htotal, Htop, Hcount. reflexivity.
Qed.

End AnalyzerFacts.

(** ** The agent *)

Section AgentFacts.

Context {RT : Runtime}.
Variable W : World.
Variable manifest : ManifestOptions.

(** *** The rate limiter, one caller at a time *)

Lemma rateLimit_eq st :
  _rateLimit W st
  = if waitTimeAt st >? 0
    then let woke := clock st + waitTimeAt st
                     + timerLag W (clock st) (waitTimeAt st) in
         (Return tt, mkState woke woke (calls st))
    else (Return tt, mkState (clock st) (clock st) (calls st)).
Proof.
  unfold _rateLimit, bind, dateNow, getLastRequestTime, setLastRequestTime.
  fold (waitTimeAt st).
  destruct (waitTimeAt st >? 0); reflexivity.
Qed.

Lemma rateLimit_returns st :
  exists st',
    _rateLimit W st = (Return tt, st')
    /\ lastRequestTime st' = clock st'
    /\ calls st' = calls st
    /\ (forall early,
          0 <= early -> timersWithin W early ->
          lastRequestTime st + rateLimitDelay - early <= clock st').
Proof.
  rewrite rateLimit_eq.
  destruct (Z.gtb_spec (waitTimeAt st) 0) as [Hwait|Hgo];
    eexists; (split; [reflexivity|]);
    unfold waitTimeAt in *; cbn [clock lastRequestTime calls];
    (split; [reflexivity|]); (split; [reflexivity|]);
    intros early Hearly Htimers.
  - specialize (Htimers (clock st)
                  (rateLimitDelay - (clock st - lastRequestTime st))).
    lia.
  - lia.
Qed.

(** *** The handler never throws *)

Lemma handleTechQuery_returns event inEnvelope st :
  exists reply st',
    _handleTechQuery W manifest event inEnvelope st = (Return reply, st').
Proof.
  unfold _handleTechQuery, tryCatch.
  destruct (handleBody W manifest event inEnvelope st) as [[reply|e] st'];
    unfold ret; eauto.
Qed.

Lemma processEvent_returns inEnvelope event st :
  exists pushed st',
    processEvent W manifest inEnvelope event st = (Return pushed, st').
Proof.
  unfold processEvent.
  destruct (addressedToMe manifest event && isUtteranceEvent event).
  - destruct (handleTechQuery_returns event inEnvelope st)
      as (reply & st' & H).
    unfold bind. rewrite H. unfold ret. eauto.
  - destruct (addressedToMe manifest event
              && (eventType event =? "getManifests")%string);
      unfold ret; eauto.
Qed.

(** The loop returns the replies of each event, in the order of the
    events, after those already collected. *)
Lemma processEvents_returns inEnvelope pending responseEvents st :
  exists replies st',
    processEvents W manifest inEnvelope pending responseEvents st
    = (Return (responseEvents ++ List.concat replies)%list, st')
    /\ Forall2
         (fun event pushed =>
            exists s1 s2,
              processEvent W manifest inEnvelope event s1
              = (Return pushed, s2))
         pending replies.
Proof.
  revert responseEvents st.
  induction pending as [|event rest IH]; intros responseEvents st.
  - exists [], st. cbn. rewrite app_nil_r. split; [reflexivity|constructor].
  - destruct (processEvent_returns inEnvelope event st)
      as (pushed & st1 & Hev).
    destruct (IH (responseEvents ++ pushed)%list st1)
      as (replies & st' & Hrest & Hall).
    exists (pushed :: replies), st'. split.
    + cbn [processEvents]. unfold bind at 1. rewrite Hev, Hrest.
      cbn [List.concat]. now rewrite app_assoc.
    + constructor; eauto.
Qed.

(** C1: [processEnvelope] returns an envelope for every inbound envelope,
    and that envelope carries the inbound conversation id and schema
    version. *)
Theorem envelope_identity_preserved (inEnvelope : Envelope Event)
  (st : State) :
  exists outEnvelope st',
    processEnvelope W manifest inEnvelope st = (Return outEnvelope, st')
    /\ conversation_id outEnvelope = conversation_id inEnvelope
    /\ schema_version outEnvelope = schema_version inEnvelope.
Proof.
  destruct (processEvents_returns inEnvelope (events inEnvelope) [] st)
    as (replies & st' & Hloop & _).
  unfold processEnvelope, bind. rewrite Hloop.
  eexists _, st'. split; [reflexivity|]. split; reflexivity.
Qed.

(** *** Addressing *)

Lemma eqOpt_true field mine : eqOpt field mine = true <-> field = Some mine.
Proof.
  destruct field as [s|]; cbn.
  - rewrite String.eqb_eq. split; congruence.
  - split; discriminate.
Qed.

(** C10: an event is addressed to the agent iff it has no [to], or its
    [to.speakerUri] is the agent's speaker URI, or its [to.serviceUrl] is
    the agent's service URL.  An event matching on the service URL alone
    is handled like any addressed event: an utterance gets the handler's
    reply and a [getManifests] request gets the manifest, also when its
    [to.speakerUri] names another agent. *)
Theorem addressed_iff (event : Event) :
  (addressedToMe manifest event = true
   <-> to event = None
       \/ (exists t, to event = Some t
                     /\ (to_speakerUri t = Some (this_speakerUri manifest)
                         \/ to_serviceUrl t
                            = Some (this_serviceUrl manifest))))
  /\ (forall other inEnvelope st,
        to event = Some (mkTo (Some other) (Some (this_serviceUrl manifest))) ->
        other <> this_speakerUri manifest ->
        addressedToMe manifest event = true
        /\ (isUtteranceEvent event = true ->
            exists reply st',
              _handleTechQuery W manifest event inEnvelope st
              = (Return reply, st')
              /\ processEvent W manifest inEnvelope event st
                 = (Return [reply], st'))
        /\ (eventType event = "getManifests" ->
            processEvent W manifest inEnvelope event st
            = (Return [PublishManifests
                         (sender_speakerUri (sender inEnvelope))
                         [manifest]], st))).
Proof.
  split.
  - unfold addressedToMe. destruct (to event) as [t|].
    + rewrite orb_true_iff, !eqOpt_true. split.
      * intros H. right. exists t. auto.
      * intros [H|(t' & Ht & H)]; [discriminate|]. now injection Ht as ->.
    + split; auto.
  - intros other inEnvelope st Hto Hother.
    assert (Haddr : addressedToMe manifest event = true).
    { unfold addressedToMe. rewrite Hto. cbn.
      rewrite String.eqb_refl. apply orb_true_r. }
    split; [exact Haddr|]. split.
    + intros Hutt.
      destruct (handleTechQuery_returns event inEnvelope st)
        as (reply & st' & H).
      exists reply, st'. split; [exact H|].
      unfold processEvent. rewrite Haddr, Hutt. cbn [andb].
      unfold bind. now rewrite H.
    + intros Hget. unfold processEvent, isUtteranceEvent.
      rewrite Haddr, Hget. reflexivity.
Qed.

(** C6: an utterance addressed to the agent whose features hold no text
    tokens is answered with the need-a-technology prompt, and the state is
    left as it was: no call of the classifier and no search is recorded. *)
Theorem no_tokens_prompt (event : Event) (inEnvelope : Envelope Event)
  (st : State) :
  addressedToMe manifest event = true ->
  isUtteranceEvent event = true ->
  tokensLength event = 0%nat ->
  _handleTechQuery W manifest event inEnvelope st
  = (Return (replyTo manifest inEnvelope needTechnologyPrompt), st)
  /\ processEvent W manifest inEnvelope event st
     = (Return [replyTo manifest inEnvelope needTechnologyPrompt], st)
  /\ calls (snd (processEvent W manifest inEnvelope event st)) = calls st.
Proof.
  intros Haddr Hutt Hlen.
  assert (H : _handleTechQuery W manifest event inEnvelope st
              = (Return (replyTo manifest inEnvelope needTechnologyPrompt),
                 st)).
  { unfold _handleTechQuery, tryCatch, handleBody. now rewrite Hlen. }
  assert (H' : processEvent W manifest inEnvelope event st
               = (Return [replyTo manifest inEnvelope needTechnologyPrompt],
                  st)).
  { unfold processEvent. rewrite Haddr, Hutt. cbn [andb].
    unfold bind. now rewrite H. }
  split; [exact H|]. split; [exact H'|]. now rewrite H'.
Qed.

(** *** The search client *)

Lemma includes_head hay c needle :
  Js.includes hay (String c needle) = true ->
  In c (list_ascii_of_string hay).
Proof.
  induction hay as [|a hay IH]; cbn; [discriminate|].
  destruct (ascii_dec c a) as [->|_]; [now left|].
  cbn. intros H. right. now apply IH.
Qed.

Lemma digits_no_t d :
  ~ In "t"%char (list_ascii_of_string (NilEmpty.string_of_uint d)).
Proof.
  induction d; cbn; intros H; try destruct H as [H|H];
    try discriminate; auto.
Qed.

Lemma ofZ_no_timeout z : Js.includes (Js.ofZ z) "timeout" = false.
Proof.
  destruct (Js.includes (Js.ofZ z) "timeout") eqn:E; [|reflexivity].
  apply includes_head in E. exfalso. revert E.
  unfold Js.ofZ, NilZero.string_of_int, NilZero.string_of_uint.
  destruct (Z.to_int z) as [d|d]; destruct d; cbn;
    intros H; repeat (destruct H as [H|H]; try discriminate);
    try (now apply digits_no_t in H); try contradiction.
Qed.

(** The error made from a status that is not ok never reads as a
    timeout. *)
Lemma http_error_not_timeout status :
  isTimeout (Js.newError ("GitHub API error: " ++ Js.ofZ status)) = false.
Proof.
  unfold isTimeout, Js.newError. cbn [Js.instanceofError Js.message andb].
  pose proof (ofZ_no_timeout status) as H. revert H.
  generalize (Js.ofZ status). intros x Hx. cbn. exact Hx.
Qed.

(** The search waits for the limiter, issues one request at the time the
    limiter let it through, and completes by the outcome of the request. *)
Lemma searchGitHub_eq technology maxResults st :
  let passed := snd (_rateLimit W st) in
  let issued := clock passed in
  let settled :=
    issued + Z.of_nat (fetchDuration W issued technology maxResults) in
  _searchGitHub W technology maxResults st
  = (searchCompletion technology
       (fetchResult W issued technology maxResults) settled,
     mkState settled (lastRequestTime passed)
       (calls st ++ [Search issued technology maxResults])).
Proof.
  destruct (rateLimit_returns st) as (st1 & Hrl & _ & Hcalls & _).
  cbv zeta. unfold _searchGitHub, bind at 1. rewrite Hrl. cbn [snd].
  unfold tryCatch, searchBody, bind, fetch, searchCompletion, requestError.
  rewrite Hcalls.
  destruct (fetchResult W (clock st1) technology maxResults)
    as [e|[[|] code [e|count [[|r l]|]]]];
    cbn [ok negb body json status snd fst];
    unfold throw, ret, json, bind, dateNow; cbn [body snd fst clock];
    try destruct (isTimeout e); try reflexivity;
    rewrite http_error_not_timeout; reflexivity.
Qed.

(** *** The utterance handler *)

Lemma mapTokenValues_state elements st :
  snd (mapTokenValues elements st) = st.
Proof.
  induction elements as [|[|[value|]] rest IH]; cbn; try reflexivity;
    unfold bind; cbn;
    destruct (mapTokenValues rest st) as [[values|e] st'];
    cbn in *; exact IH.
Qed.

Lemma technologyOf_state event st : snd (technologyOf event st) = st.
Proof.
  unfold technologyOf.
  destruct (tokensOf event) as [[elements|n]|]; try reflexivity.
  unfold bind.
  pose proof (mapTokenValues_state elements st) as H.
  destruct (mapTokenValues elements st) as [[values|e] st']; exact H.
Qed.

Lemma handleBody_throws event inEnvelope st e :
  tokensLength event <> 0%nat ->
  fst (technologyOf event st) = Throw e ->
  handleBody W manifest event inEnvelope st = (Throw e, st).
Proof.
  intros Hlen Htech. unfold handleBody.
  destruct (Nat.eqb_spec (tokensLength event) 0); [contradiction|].
  unfold bind. pose proof (technologyOf_state event st) as Hst.
  destruct (technologyOf event st) as [[q|e'] st']; cbn [fst snd] in *;
    congruence.
Qed.

Lemma handleBody_rejects event inEnvelope st technology :
  tokensLength event <> 0%nat ->
  fst (technologyOf event st) = Return technology ->
  _isTechQuery technology = false ->
  handleBody W manifest event inEnvelope st
  = (Return (replyTo manifest inEnvelope domainMismatchPrompt),
     classified technology st).
Proof.
  intros Hlen Htech Hno. unfold handleBody.
  destruct (Nat.eqb_spec (tokensLength event) 0); [contradiction|].
  unfold bind at 1. pose proof (technologyOf_state event st) as Hst.
  destruct (technologyOf event st) as [[q|e'] st']; cbn [fst snd] in *;
    [|discriminate].
  injection Htech as ->. subst st'.
  unfold bind, isTechQuery, record, ret. rewrite Hno. reflexivity.
Qed.

Lemma handleBody_searches event inEnvelope st technology :
  tokensLength event <> 0%nat ->
  fst (technologyOf event st) = Return technology ->
  _isTechQuery technology = true ->
  handleBody W manifest event inEnvelope st
  = (match fst (_searchGitHub W technology 5 (classified technology st))
     with
     | Return results => Return (replyTo manifest inEnvelope results)
     | Throw e => Throw e
     end,
     snd (_searchGitHub W technology 5 (classified technology st))).
Proof.
  intros Hlen Htech Hyes. unfold handleBody.
  destruct (Nat.eqb_spec (tokensLength event) 0); [contradiction|].
  unfold bind at 1. pose proof (technologyOf_state event st) as Hst.
  destruct (technologyOf event st) as [[q|e'] st']; cbn [fst snd] in *;
    [|discriminate].
  injection Htech as ->. subst st'.
  unfold bind at 1. unfold isTechQuery, record, ret.
  unfold bind at 1. rewrite Hyes. cbn [negb].
  unfold bind. cbn [clock lastRequestTime calls].
  fold (classified technology st).
  destruct (_searchGitHub W technology 5 (classified technology st))
    as [[results|e] st']; reflexivity.
Qed.

(** The handler's catch block returns in the state the body left. *)
Lemma handleTechQuery_state event inEnvelope st :
  snd (_handleTechQuery W manifest event inEnvelope st)
  = snd (handleBody W manifest event inEnvelope st).
Proof.
  unfold _handleTechQuery, tryCatch.
  destruct (handleBody W manifest event inEnvelope st) as [[reply|e] st'];
    reflexivity.
Qed.

(** *** Which calls a request makes *)

Lemma searchesAccepted_nil : searchesAccepted [].
Proof. intros t q n []. Qed.

Lemma searchesAccepted_app made more :
  searchesAccepted made -> searchesAccepted more ->
  searchesAccepted (made ++ more).
Proof.
  intros H1 H2 t q n Hin. apply in_app_or in Hin.
  destruct Hin; [eapply H1|eapply H2]; eassumption.
Qed.

Lemma handleBody_calls event inEnvelope st :
  exists made,
    calls (snd (handleBody W manifest event inEnvelope st))
    = (calls st ++ made)%list
    /\ searchesAccepted made.
Proof.
  destruct (Nat.eq_dec (tokensLength event) 0) as [Hzero|Hlen].
  - exists []. unfold handleBody. rewrite Hzero. cbn.
    split; [now rewrite app_nil_r | apply searchesAccepted_nil].
  - destruct (fst (technologyOf event st)) as [technology|e] eqn:Htech.
    + destruct (_isTechQuery technology) eqn:Hq.
      * rewrite (handleBody_searches _ _ _ _ Hlen Htech Hq).
        rewrite searchGitHub_eq. cbn [snd calls classified].
        eexists. rewrite <- app_assoc. split; [reflexivity|].
        intros t q n [H|[H|[]]]; [discriminate|].
        now injection H as _ <- _.
      * rewrite (handleBody_rejects _ _ _ _ Hlen Htech Hq).
        eexists. split; [reflexivity|].
        intros t q n [H|[]]. discriminate.
    + rewrite (handleBody_throws _ _ _ _ Hlen Htech).
      exists []. cbn. split;
        [now rewrite app_nil_r | apply searchesAccepted_nil].
Qed.

Lemma processEvent_calls inEnvelope event st :
  exists made,
    calls (snd (processEvent W manifest inEnvelope event st))
    = (calls st ++ made)%list
    /\ searchesAccepted made.
Proof.
  unfold processEvent.
  destruct (addressedToMe manifest event && isUtteranceEvent event).
  - destruct (handleBody_calls event inEnvelope st) as (made & H & Hacc).
    exists made. split; [|exact Hacc].
    rewrite <- H, <- handleTechQuery_state. unfold bind.
    destruct (_handleTechQuery W manifest event inEnvelope st)
      as [[reply|e] st']; reflexivity.
  - exists []. split; [|apply searchesAccepted_nil].
    rewrite app_nil_r.
    destruct (addressedToMe manifest event
              && (eventType event =? "getManifests")%string);
      reflexivity.
Qed.

Lemma processEvents_calls inEnvelope pending responseEvents st :
  exists made,
    calls (snd (processEvents W manifest inEnvelope pending
                  responseEvents st))
    = (calls st ++ made)%list
    /\ searchesAccepted made.
Proof.
  revert responseEvents st.
  induction pending as [|event rest IH]; intros responseEvents st.
  - exists []. cbn. split;
      [now rewrite app_nil_r | apply searchesAccepted_nil].
  - destruct (processEvent_calls inEnvelope event st) as (m1 & H1 & A1).
    destruct (processEvent_returns inEnvelope event st)
      as (pushed & st1 & Hev).
    rewrite Hev in H1. cbn [snd] in H1.
    destruct (IH (responseEvents ++ pushed)%list st1) as (m2 & H2 & A2).
    exists (m1 ++ m2)%list. split; [|now apply searchesAccepted_app].
    cbn [processEvents]. unfold bind at 1. rewrite Hev, H2, H1.
    now rewrite app_assoc.
Qed.

(** C7: an utterance whose query text the classifier rejects is answered
    with the domain-mismatch prompt, and the only call made is that of
    the classifier; over a whole envelope, every search the agent issues
    is for a query the classifier accepts. *)
Theorem out_of_domain_never_searched (event : Event)
  (inEnvelope : Envelope Event) (st : State) (technology : string) :
  tokensLength event <> 0%nat ->
  fst (technologyOf event st) = Return technology ->
  _isTechQuery technology = false ->
  _handleTechQuery W manifest event inEnvelope st
  = (Return (replyTo manifest inEnvelope domainMismatchPrompt),
     classified technology st)
  /\ calls (snd (_handleTechQuery W manifest event inEnvelope st))
     = (calls st ++ [Classify technology])%list
  /\ (forall (anyEnvelope : Envelope Event) (st0 : State),
        exists made,
          calls (snd (processEnvelope W manifest anyEnvelope st0))
          = (calls st0 ++ made)%list
          /\ searchesAccepted made).
Proof.
  intros Hlen Htech Hno.
  assert (H : _handleTechQuery W manifest event inEnvelope st
              = (Return (replyTo manifest inEnvelope domainMismatchPrompt),
                 classified technology st)).
  { unfold _handleTechQuery, tryCatch.
    now rewrite (handleBody_rejects _ _ _ _ Hlen Htech Hno). }
  split; [exact H|]. split; [now rewrite H|].
  intros anyEnvelope st0.
  destruct (processEvents_calls anyEnvelope (events anyEnvelope) [] st0)
    as (made & Hcalls & Hacc).
  exists made. split; [|exact Hacc].
  rewrite <- Hcalls. unfold processEnvelope, bind.
  destruct (processEvents W manifest anyEnvelope (events anyEnvelope) [] st0)
    as [[replies|e] st']; reflexivity.
Qed.

(** *** Empty results and failures *)

Lemma noRepositories_not_report technology now data :
  noRepositoriesMessage technology <> trendReport now data technology.
Proof.
  unfold noRepositoriesMessage, trendReport. cbn [append].
  intros H. discriminate H.
Qed.

(** C8: when the request succeeds with no items (an empty or missing item
    list), the search returns normally, its text is the
    no-repositories-found message and nothing else: it is not a report,
    and the adoption and activity sections of an empty list are empty. *)
Theorem empty_result_message (technology : string) (maxResults : Z)
  (st : State) (response : Response) (count : Z)
  (noItems : option (list GitHubRepo)) :
  fetchResult W (clock (snd (_rateLimit W st))) technology maxResults
  = Resolved response ->
  ok response = true ->
  body response = SearchJson count noItems ->
  noItems = None \/ noItems = Some [] ->
  (exists st',
     _searchGitHub W technology maxResults st
     = (Return (noRepositoriesMessage technology), st'))
  /\ (forall now data,
        noRepositoriesMessage technology
        <> trendReport now data technology)
  /\ _analyzeTechnologyTrends (mkSearchResponse count []) technology = EmptyString
  /\ (forall now, _analyzeRecentActivity now [] technology = EmptyString).
Proof.
  intros Hfetch Hok Hbody Hnone.
  split; [|split; [|split]].
  - rewrite searchGitHub_eq. cbv zeta. rewrite Hfetch.
    eexists. f_equal.
    unfold searchCompletion, requestError. rewrite Hok. cbn [negb].
    destruct response as [o code b]. cbn [body] in *. subst b.
    destruct Hnone; subst noItems; reflexivity.
  - intros now data. apply noRepositories_not_report.
  - reflexivity.
  - reflexivity.
Qed.

(** The reply to an accepted query whose search request fails. *)
Lemma failed_search_reply event inEnvelope st technology e :
  tokensLength event <> 0%nat ->
  fst (technologyOf event st) = Return technology ->
  _isTechQuery technology = true ->
  requestError
    (fetchResult W (clock (snd (_rateLimit W (classified technology st))))
       technology 5) = Some e ->
  fst (_handleTechQuery W manifest event inEnvelope st)
  = Return (replyTo manifest inEnvelope
              (if isTimeout e then timeoutMessage technology
               else apology)).
Proof.
  intros Hlen Htech Hyes Herr.
  unfold _handleTechQuery, tryCatch.
  rewrite (handleBody_searches _ _ _ _ Hlen Htech Hyes).
  rewrite searchGitHub_eq. cbv zeta. cbn [fst snd].
  unfold searchCompletion. rewrite Herr.
  destruct (isTimeout e); reflexivity.
Qed.

(** An error leaves the body of the handler only if it does not read as a
    timeout. *)
Lemma handleBody_error_not_timeout event inEnvelope st e st' :
  handleBody W manifest event inEnvelope st = (Throw e, st') ->
  isTimeout e = false.
Proof.
  intros H.
  destruct (Nat.eq_dec (tokensLength event) 0) as [Hzero|Hlen].
  - unfold handleBody in H. rewrite Hzero in H. discriminate.
  - destruct (fst (technologyOf event st)) as [technology|e0] eqn:Htech.
    + destruct (_isTechQuery technology) eqn:Hq.
      * rewrite (handleBody_searches _ _ _ _ Hlen Htech Hq) in H.
        rewrite searchGitHub_eq in H. cbv zeta in H. cbn [fst snd] in H.
        unfold searchCompletion in H.
        destruct (requestError _) as [e1|].
        -- destruct (isTimeout e1) eqn:Ht; [discriminate|]. congruence.
        -- destruct (fetchResult _ _ _ _) as [?|[? ? [?|? [[|? ?]|]]]];
             discriminate.
      * rewrite (handleBody_rejects _ _ _ _ Hlen Htech Hq) in H.
        discriminate.
    + rewrite (handleBody_throws _ _ _ _ Hlen Htech) in H.
      injection H as <- _.
      unfold technologyOf in Htech.
      destruct (tokensOf event) as [[elements|n]|];
        try (cbn in Htech; injection Htech as <-; reflexivity).
      unfold bind in Htech.
      destruct (mapTokenValues elements st) as [[values|e1] st1] eqn:Hmap;
        cbn in Htech; [discriminate|]. injection Htech as ->.
      clear - Hmap. revert st st1 Hmap.
      induction elements as [|[|[value|]] rest IH]; intros st st1;
        cbn; unfold bind, ret, throw; cbn;
        try discriminate.
      -- intros H. now injection H as <- _.
      -- destruct (mapTokenValues rest st) as [[vs|e1] s1] eqn:Hrest;
           [discriminate|].
         intros H. injection H as -> ->. eapply IH; eassumption.
      -- destruct (mapTokenValues rest st) as [[vs|e1] s1] eqn:Hrest;
           [discriminate|].
         intros H. injection H as -> ->. eapply IH; eassumption.
Qed.

(** C2, as the code has it: an error that leaves the body of the handler
    is answered with the apology, in the state the body reached, and no
    such error reads as a timeout; a failed search request is answered
    with the apology unless its error reads as a timeout, in which case
    the reply is the timeout notice; the handler never throws; and
    [processEnvelope] returns with the replies of every event, each
    produced by that event's own processing, in the order of the
    events. *)
Theorem failures_isolated (inEnvelope : Envelope Event) :
  (forall event st e st',
      handleBody W manifest event inEnvelope st = (Throw e, st') ->
      isTimeout e = false
      /\ _handleTechQuery W manifest event inEnvelope st
         = (Return (replyTo manifest inEnvelope apology), st'))
  /\ (forall event st technology e,
        tokensLength event <> 0%nat ->
        fst (technologyOf event st) = Return technology ->
        _isTechQuery technology = true ->
        requestError
          (fetchResult W
             (clock (snd (_rateLimit W (classified technology st))))
             technology 5) = Some e ->
        fst (_handleTechQuery W manifest event inEnvelope st)
        = Return (replyTo manifest inEnvelope
                    (if isTimeout e then timeoutMessage technology
                     else apology)))
  /\ (forall event st,
        exists reply st',
          _handleTechQuery W manifest event inEnvelope st
          = (Return reply, st'))
  /\ (forall st,
        exists outEnvelope st' replies,
          processEnvelope W manifest inEnvelope st
          = (Return outEnvelope, st')
          /\ events outEnvelope = List.concat replies
          /\ Forall2
               (fun event pushed =>
                  exists s1 s2,
                    processEvent W manifest inEnvelope event s1
                    = (Return pushed, s2))
               (events inEnvelope) replies).
Proof.
  split; [|split; [|split]].
  - intros event st e st' H. split.
    + eapply handleBody_error_not_timeout; eassumption.
    + unfold _handleTechQuery, tryCatch. now rewrite H.
  - intros event st technology e. apply failed_search_reply.
  - intros event st. apply handleTechQuery_returns.
  - intros st.
    destruct (processEvents_returns inEnvelope (events inEnvelope) [] st)
      as (replies & st' & Hloop & Hall).
    unfold processEnvelope, bind. rewrite Hloop.
    eexists _, st', replies. split; [reflexivity|]. split; [|exact Hall].
    reflexivity.
Qed.

(** *** Spacing of the searches of callers that run one after another *)

Lemma ForallOrdPairs_snoc {A} (R : A -> A -> Prop) l x :
  ForallOrdPairs R l -> Forall (fun y => R y x) l ->
  ForallOrdPairs R (l ++ [x]).
Proof.
  induction 1 as [|a l Ha Hl IH]; intros Hx; cbn.
  - repeat constructor.
  - inversion Hx as [|? ? Hax Hlx]; subst.
    constructor; [|now apply IH].
    apply Forall_app. split; [exact Ha|now constructor].
Qed.

Lemma searchTimes_classify made technology :
  searchTimes (made ++ [Classify technology]) = searchTimes made.
Proof. unfold searchTimes. rewrite flat_map_app. cbn. apply app_nil_r. Qed.

Lemma searchTimes_search made time q n :
  searchTimes (made ++ [Search time q n])
  = (searchTimes made ++ [time])%list.
Proof. unfold searchTimes. now rewrite flat_map_app. Qed.

Lemma classified_paced gap technology st :
  pacedBy gap st -> pacedBy gap (classified technology st).
Proof.
  unfold pacedBy, classified. cbn [calls lastRequestTime].
  now rewrite searchTimes_classify.
Qed.

Lemma searchGitHub_paced early technology maxResults st :
  0 <= early <= rateLimitDelay -> timersWithin W early ->
  pacedBy (rateLimitDelay - early) st ->
  pacedBy (rateLimitDelay - early)
          (snd (_searchGitHub W technology maxResults st)).
Proof.
  intros Hearly Htimers [Hlast Hgaps].
  destruct (rateLimit_returns st) as (st1 & Hrl & Heq & _ & Hwait).
  specialize (Hwait early (proj1 Hearly) Htimers).
  rewrite searchGitHub_eq. cbv zeta. rewrite Hrl.
  unfold pacedBy. cbn [snd calls lastRequestTime].
  rewrite searchTimes_search, Heq. unfold rateLimitDelay in *. split.
  - apply Forall_app. split.
    + eapply Forall_impl; [|exact Hlast]. cbv beta. intros t Ht. lia.
    + repeat constructor. lia.
  - apply ForallOrdPairs_snoc; [exact Hgaps|].
    eapply Forall_impl; [|exact Hlast]. cbv beta. intros t Ht. lia.
Qed.

Lemma handleTechQuery_paced early event inEnvelope st :
  0 <= early <= rateLimitDelay -> timersWithin W early ->
  pacedBy (rateLimitDelay - early) st ->
  pacedBy (rateLimitDelay - early)
          (snd (_handleTechQuery W manifest event inEnvelope st)).
Proof.
  intros Hearly Htimers Hp. rewrite handleTechQuery_state.
  destruct (Nat.eq_dec (tokensLength event) 0) as [Hzero|Hlen].
  - unfold handleBody. now rewrite Hzero.
  - destruct (fst (technologyOf event st)) as [technology|e] eqn:Htech.
    + destruct (_isTechQuery technology) eqn:Hq.
      * rewrite (handleBody_searches _ _ _ _ Hlen Htech Hq). cbn [snd].
        now apply searchGitHub_paced, classified_paced.
      * rewrite (handleBody_rejects _ _ _ _ Hlen Htech Hq).
        now apply classified_paced.
    + now rewrite (handleBody_throws _ _ _ _ Hlen Htech).
Qed.

Lemma processEvent_paced early inEnvelope event st :
  0 <= early <= rateLimitDelay -> timersWithin W early ->
  pacedBy (rateLimitDelay - early) st ->
  pacedBy (rateLimitDelay - early)
          (snd (processEvent W manifest inEnvelope event st)).
Proof.
  intros Hearly Htimers Hp. unfold processEvent.
  destruct (addressedToMe manifest event && isUtteranceEvent event).
  - pose proof (handleTechQuery_paced early event inEnvelope st Hearly
                  Htimers Hp) as H.
    unfold bind.
    destruct (_handleTechQuery W manifest event inEnvelope st)
      as [[reply|e] st']; exact H.
  - destruct (addressedToMe manifest event
              && (eventType event =? "getManifests")%string); exact Hp.
Qed.

Lemma processEvents_paced early inEnvelope pending responseEvents st :
  0 <= early <= rateLimitDelay -> timersWithin W early ->
  pacedBy (rateLimitDelay - early) st ->
  pacedBy (rateLimitDelay - early)
          (snd (processEvents W manifest inEnvelope pending
                  responseEvents st)).
Proof.
  intros Hearly Htimers. revert responseEvents st.
  induction pending as [|event rest IH]; intros responseEvents st Hp;
    [exact Hp|].
  cbn [processEvents]. unfold bind at 1.
  pose proof (processEvent_paced early inEnvelope event st Hearly Htimers Hp)
    as H1.
  destruct (processEvent W manifest inEnvelope event st)
    as [[pushed|e] st1]; [now apply IH | exact H1].
Qed.

Lemma processEnvelope_paced early inEnvelope st :
  0 <= early <= rateLimitDelay -> timersWithin W early ->
  pacedBy (rateLimitDelay - early) st ->
  pacedBy (rateLimitDelay - early)
          (snd (processEnvelope W manifest inEnvelope st)).
Proof.
  intros Hearly Htimers Hp. unfold processEnvelope, bind.
  pose proof (processEvents_paced early inEnvelope (events inEnvelope) [] st
                Hearly Htimers Hp) as H.
  destruct (processEvents W manifest inEnvelope (events inEnvelope) [] st)
    as [[replies|e] st']; exact H.
Qed.

(** Within one request, and across requests handled one after another,
    every search is at least the minimum interval after all earlier ones,
    as long as no timer fires early. *)
Lemma sequential_searches_paced inEnvelope st :
  timersWithin W 0 ->
  paced st -> paced (snd (processEnvelope W manifest inEnvelope st)).
Proof.
  intros Htimers Hp.
  assert (Hearly : 0 <= 0 <= rateLimitDelay) by (unfold rateLimitDelay; lia).
  pose proof (processEnvelope_paced 0 inEnvelope st Hearly Htimers) as H.
  rewrite Z.sub_0_r in H. exact (H Hp).
Qed.

End AgentFacts.

(** ** Requests in flight at the same time *)

Section InterleavingFacts.

Import Interleaving.

(** A caller that runs alone goes through the pieces of [_rateLimit] as
    the sequential reading of the function does. *)
Lemma lone_caller_agrees (W : World) (st : State) :
  0 <= timerLag W (clock st) (waitTimeAt st) ->
  let st' := snd (_rateLimit W st) in
  let lag := timerLag W (clock st) (waitTimeAt st) in
  let schedule :=
    if waitTimeAt st >? 0
    then [Resume 0; Tick (Z.to_nat (waitTimeAt st + lag)); Resume 0]
    else [Resume 0] in
  exec schedule (mkProcess (clock st) (lastRequestTime st) [Arriving])
  = mkProcess (clock st') (lastRequestTime st') [Issued (clock st')].
Proof.
  intros Hlag. cbv zeta. rewrite rateLimit_eq.
  destruct (Z.gtb_spec (waitTimeAt st) 0) as [Hwait|Hgo].
  - cbn [snd clock lastRequestTime exec fold_left step nth_error callers
           now last resume replace].
    fold (waitTimeAt st).
    destruct (Z.gtb_spec (waitTimeAt st) 0) as [_|]; [|lia].
    cbn [snd clock lastRequestTime exec fold_left step nth_error callers
           now last resume replace].
    rewrite Z2Nat.id by lia. rewrite Z.add_assoc.
    destruct (Z.leb_spec (clock st + waitTimeAt st)
                (clock st + waitTimeAt st
                 + timerLag W (clock st) (waitTimeAt st)))
      as [_|Hlt]; [reflexivity|lia].
  - cbn [snd clock lastRequestTime exec fold_left step nth_error callers
           now last resume replace].
    fold (waitTimeAt st).
    destruct (Z.gtb_spec (waitTimeAt st) 0) as [|_]; [lia|].
    reflexivity.
Qed.

(** On entry a caller is let through at once when the minimum interval
    since the [lastRequestTime] it reads has passed, and otherwise waits
    for the rest of it without touching [lastRequestTime]. *)
Lemma arriving_caller now last :
  (last + rateLimitDelay <= now
   /\ resume Arriving now last = (Issued now, now))
  \/ (now < last + rateLimitDelay
      /\ resume Arriving now last
         = (Waiting (last + rateLimitDelay), last)).
Proof.
  unfold resume.
  destruct (Z.gtb_spec (rateLimitDelay - (now - last)) 0).
  - right. split; [lia|]. do 2 f_equal. lia.
  - left. split; [lia|reflexivity].
Qed.

(** A waiting caller records the time and issues its request when its
    timer has fired, whatever [lastRequestTime] has become meanwhile. *)
Lemma waiting_caller wake now last :
  wake <= now -> resume (Waiting wake) now last = (Issued now, now).
Proof.
  intros H. unfold resume.
  destruct (Z.leb_spec wake now); [reflexivity|lia].
Qed.

(** C5 fails when callers overlap: two requests arrive half a second
    apart while the interval since the last search is still running.
    Both read the same [lastRequestTime], both wake at the same time, and
    both requests go out together, 0 ms apart. *)
Theorem overlapping_callers_collide :
  let p := exec overlappingSchedule twoArrivals in
  callers p = [Issued 6000; Issued 6000]
  /\ issuedTimes p = [6000; 6000]
  /\ spaced (issuedTimes p) = false.
Proof. cbv zeta. vm_compute. repeat split. Qed.

End InterleavingFacts.

(** ** The properties on the sample inputs *)

Section Examples.

Import Sample.
#[local] Existing Instance EnUs.runtime.

Example isTechQuery_trending : _isTechQuery "Trending JS tools" = true.
Proof. reflexivity. Qed.

Example isTechQuery_cooking : _isTechQuery "cooking recipes" = false.
Proof. reflexivity. Qed.

(** The envelope of four events, the first malformed, is answered event by
    event. *)
Example envelope_with_malformed_event :
  let inEnvelope :=
    envelope [malformed; utterance None ["python"];
              mkEvent "getManifests" None None;
              utterance (Some (mkTo (Some "tag:example.com,2025:other-agent")
                                    None)) ["go"]] in
  fst (processEnvelope (answering (found 0 [])) agent inEnvelope idle)
  = Return
      (mkEnvelope "1.0.0" "conversation-42"
         (mkSender (this_speakerUri agent) (this_serviceUrl agent))
         [ replyTo agent inEnvelope apology;
           replyTo agent inEnvelope (noRepositoriesMessage "python");
           PublishManifests "tag:example.com,2025:user" [agent] ]).
Proof. vm_compute. reflexivity. Qed.

Lemma failures_isolated_witness :
  tokensLength rustQuery <> 0%nat
  /\ fst (technologyOf rustQuery idle) = Return "Rust"
  /\ _isTechQuery "Rust" = true
  /\ requestError
       (fetchResult refusing
          (clock (snd (_rateLimit refusing (classified "Rust" idle))))
          "Rust" 5)
     = Some (Js.newError "connect ECONNREFUSED")
  /\ fst (_handleTechQuery refusing agent rustQuery (envelope [rustQuery])
            idle)
     = Return (replyTo agent (envelope [rustQuery])
                 (if isTimeout (Js.newError "connect ECONNREFUSED")
                  then timeoutMessage "Rust" else apology)).
Proof.
  assert (H1 : tokensLength rustQuery <> 0%nat) by discriminate.
  assert (H2 : fst (technologyOf rustQuery idle) = Return "Rust")
    by reflexivity.
  assert (H3 : _isTechQuery "Rust" = true) by reflexivity.
  assert (H4 : requestError
                 (fetchResult refusing
                    (clock (snd (_rateLimit refusing
                                   (classified "Rust" idle))))
                    "Rust" 5)
               = Some (Js.newError "connect ECONNREFUSED"))
    by reflexivity.
  refine (conj H1 (conj H2 (conj H3 (conj H4 _)))).
  exact (proj1 (proj2 (failures_isolated refusing agent
                         (envelope [rustQuery])))
           rustQuery idle "Rust" _ H1 H2 H3 H4).
Defined.

(** C2 as stated fails: the search request for an accepted query is
    rejected with a network error, and the reply is the timeout notice,
    not the apology. *)
Lemma timeout_reply_is_not_apology :
  requestError
    (fetchResult timingOut
       (clock (snd (_rateLimit timingOut (classified "Rust" idle))))
       "Rust" 5)
  = Some (Js.newError "network timeout")
  /\ fst (_handleTechQuery timingOut agent rustQuery (envelope [rustQuery])
            idle)
     = Return (replyTo agent (envelope [rustQuery]) (timeoutMessage "Rust"))
  /\ fst (_handleTechQuery timingOut agent rustQuery (envelope [rustQuery])
            idle)
     <> Return (replyTo agent (envelope [rustQuery]) apology).
Proof.
  split; [reflexivity|]. split; [vm_compute; reflexivity|].
  vm_compute. intros H. discriminate H.
Qed.

Lemma activity_level_thresholds_witness :
  seventyPercent <> []
  /\ (10 * veryRecentUpdates noon seventyPercent
      = 7 * List.length seventyPercent)%nat
  /\ activityLevel noon seventyPercent <> "Very Active"
  /\ (activityLevel noon seventyPercent = "Active"
      <-> ~ (7 # 10 < ratio (veryRecentUpdates noon seventyPercent)
                            (List.length seventyPercent))%Q
          /\ (5 # 10 < ratio (recentUpdates noon seventyPercent)
                             (List.length seventyPercent))%Q).
Proof.
  assert (H1 : seventyPercent <> []) by discriminate.
  assert (H2 : (10 * veryRecentUpdates noon seventyPercent
                = 7 * List.length seventyPercent)%nat) by reflexivity.
  pose proof (activity_level_thresholds noon seventyPercent H1) as H.
  cbv zeta in H.
  destruct H as (_ & Hactive & _ & _ & _ & _ & _ & _ & Hseventy & _ & _).
  exact (conj H1 (conj H2 (conj (Hseventy H2) Hactive))).
Defined.

(** C4 as stated fails: of these ten items exactly seven were updated
    within 30 days of now, the eighth being 30 days and 23 hours old, yet
    eight are counted in the 30-day window and the level is Very Active. *)
Lemma seventy_percent_by_age_is_very_active :
  List.length MoreSamples.seventyByAge = 10%nat
  /\ List.length (filter (updatedWithin 30 noon) MoreSamples.seventyByAge)
     = 7%nat
  /\ veryRecentUpdates noon MoreSamples.seventyByAge = 8%nat
  /\ activityLevel noon MoreSamples.seventyByAge = "Very Active".
Proof. repeat split; vm_compute; reflexivity. Qed.

Lemma no_tokens_prompt_witness :
  addressedToMe agent silent = true
  /\ isUtteranceEvent silent = true
  /\ tokensLength silent = 0%nat
  /\ _handleTechQuery refusing agent silent (envelope [silent]) idle
     = (Return (replyTo agent (envelope [silent]) needTechnologyPrompt),
        idle).
Proof.
  assert (H1 : addressedToMe agent silent = true) by reflexivity.
  assert (H2 : isUtteranceEvent silent = true) by reflexivity.
  assert (H3 : tokensLength silent = 0%nat) by reflexivity.
  refine (conj H1 (conj H2 (conj H3 _))).
  exact (proj1 (no_tokens_prompt refusing agent silent (envelope [silent])
                  idle H1 H2 H3)).
Defined.

Lemma out_of_domain_never_searched_witness :
  tokensLength cookingQuery <> 0%nat
  /\ fst (technologyOf cookingQuery idle) = Return "cooking recipes"
  /\ _isTechQuery "cooking recipes" = false
  /\ calls (snd (_handleTechQuery refusing agent cookingQuery
                   (envelope [cookingQuery]) idle))
     = (calls idle ++ [Classify "cooking recipes"])%list.
Proof.
  assert (H1 : tokensLength cookingQuery <> 0%nat) by discriminate.
  assert (H2 : fst (technologyOf cookingQuery idle)
               = Return "cooking recipes") by reflexivity.
  assert (H3 : _isTechQuery "cooking recipes" = false) by reflexivity.
  refine (conj H1 (conj H2 (conj H3 _))).
  exact (proj1 (proj2 (out_of_domain_never_searched refusing agent
                         cookingQuery (envelope [cookingQuery]) idle
                         "cooking recipes" H1 H2 H3))).
Defined.

Lemma empty_result_message_witness :
  fetchResult (answering (found 0 []))
    (clock (snd (_rateLimit (answering (found 0 [])) idle))) "rust" 5
  = Resolved (mkResponse true 200 (SearchJson 0 (Some [])))
  /\ exists st',
       _searchGitHub (answering (found 0 [])) "rust" 5 idle
       = (Return (noRepositoriesMessage "rust"), st').
Proof.
  assert (H1 : fetchResult (answering (found 0 []))
                 (clock (snd (_rateLimit (answering (found 0 [])) idle)))
                 "rust" 5
               = Resolved (mkResponse true 200 (SearchJson 0 (Some []))))
    by reflexivity.
  refine (conj H1 _).
  exact (proj1 (empty_result_message (answering (found 0 [])) "rust" 5 idle
                  (mkResponse true 200 (SearchJson 0 (Some []))) 0
                  (Some []) H1 eq_refl eq_refl (or_intror eq_refl))).
Defined.

Lemma synthetic_result_report_witness :
  map stargazers_count synthetic = [100; 200; 300]
  /\ map language synthetic = [Some "Go"; Some "Go"; Some "Rust"]
  /\ adoptionLevel 12000 = "High"
  /\ avgStars synthetic = 200
  /\ map formatLanguage (topLanguages synthetic) = ["Go (2)"; "Rust (1)"].
Proof.
  assert (H1 : map stargazers_count synthetic = [100; 200; 300])
    by reflexivity.
  assert (H2 : map language synthetic = [Some "Go"; Some "Go"; Some "Rust"])
    by reflexivity.
  pose proof (synthetic_result_report synthetic "go" H1 H2) as H.
  cbv zeta in H. cbn [total_count] in H.
  destruct H as (Hlevel & _ & Havg & _ & _ & Hlangs & _).
  exact (conj H1 (conj H2 (conj Hlevel (conj Havg Hlangs)))).
Defined.

Lemma addressed_iff_witness :
  to byServiceUrl
  = Some (mkTo (Some "tag:example.com,2025:other-agent")
               (Some (this_serviceUrl agent)))
  /\ "tag:example.com,2025:other-agent" <> this_speakerUri agent
  /\ addressedToMe agent byServiceUrl = true
  /\ exists reply st',
       processEvent (answering (found 0 [])) agent
         (envelope [byServiceUrl]) byServiceUrl idle
       = (Return [reply], st').
Proof.
  assert (H1 : to byServiceUrl
               = Some (mkTo (Some "tag:example.com,2025:other-agent")
                            (Some (this_serviceUrl agent))))
    by reflexivity.
  assert (H2 : "tag:example.com,2025:other-agent" <> this_speakerUri agent)
    by discriminate.
  destruct (proj2 (addressed_iff (answering (found 0 [])) agent
                     byServiceUrl)
              _ (envelope [byServiceUrl]) idle H1 H2)
    as (Haddr & Hutt & _).
  destruct (Hutt eq_refl) as (reply & st' & _ & Hev).
  exact (conj H1 (conj H2 (conj Haddr
           (ex_intro _ reply (ex_intro _ st' Hev))))).
Defined.

End Examples.

(** * Further properties of the code *)

(** ** The report sections *)

Section ReportFacts.

Context {RT : Runtime}.

(** X1: the sort of the language entries returns the same entries, ordered
    by descending count, and keeps entries of equal count in the order they
    had. *)
Theorem language_sort_stable_descending (entries : list (string * Z)) :
  Permutation entries (sortByCount entries)
  /\ StronglySorted byCountDesc (sortByCount entries)
  /\ (forall count,
        filter (fun entry => snd entry =? count) (sortByCount entries)
        = filter (fun entry => snd entry =? count) entries).
Proof.
  split; [apply sortByCount_perm|].
  split; [apply sortByCount_sorted|].
  intros count. apply sortByCount_stable.
Qed.

Lemma countFor_increment k lang languages :
  countFor k (increment lang languages)
  = if String.eqb lang k then countFor lang languages + 1
    else countFor k languages.
Proof.
  induction languages as [|[key count] rest IH]; cbn [increment countFor].
  - destruct (String.eqb_spec lang k); reflexivity.
  - destruct (String.eqb_spec key lang) as [->|Hkl]; cbn [countFor].
    + rewrite ?String.eqb_refl.
      destruct (String.eqb_spec lang k) as [->|Hlk];
        rewrite ?String.eqb_refl; reflexivity.
    + rewrite IH.
      destruct (String.eqb_spec lang k) as [<-|Hlk].
      * destruct (String.eqb_spec key lang); [contradiction|reflexivity].
      * reflexivity.
Qed.

Lemma keys_increment k lang languages :
  In k (map fst (increment lang languages))
  <-> k = lang \/ In k (map fst languages).
Proof.
  induction languages as [|[key count] rest IH]; cbn [increment map fst In].
  - intuition.
  - destruct (String.eqb_spec key lang) as [->|Hkl]; cbn [map fst In].
    + intuition.
    + rewrite IH. intuition.
Qed.

Lemma NoDup_increment lang languages :
  NoDup (map fst languages) -> NoDup (map fst (increment lang languages)).
Proof.
  induction languages as [|[key count] rest IH]; cbn [increment map fst].
  - intros _. repeat constructor. intros [].
  - intros Hnd. inversion Hnd as [|? ? Hnotin Hrest]; subst.
    destruct (String.eqb_spec key lang) as [->|Hkl]; cbn [map fst].
    + now constructor.
    + constructor; [|now apply IH].
      rewrite keys_increment. intros [->|Hin]; [congruence|contradiction].
Qed.

Lemma counts_increment lang languages :
  Forall (fun entry => 1 <= snd entry) languages ->
  Forall (fun entry => 1 <= snd entry) (increment lang languages).
Proof.
  induction 1 as [|[key count] rest Hc Hrest IH]; cbn [increment].
  - repeat constructor. cbn. lia.
  - destruct (String.eqb key lang); constructor; cbn in *; auto; lia.
Qed.

Lemma countFor_In k count languages :
  NoDup (map fst languages) -> In (k, count) languages ->
  countFor k languages = count.
Proof.
  induction languages as [|[key c] rest IH]; cbn [map fst In countFor];
    [intros _ []|].
  intros Hnd [Heq|Hin].
  - injection Heq as -> ->. now rewrite String.eqb_refl.
  - inversion Hnd as [|? ? Hnotin Hrest]; subst.
    destruct (String.eqb_spec key k) as [->|_].
    + exfalso. apply Hnotin. now apply (in_map fst) in Hin.
    + now apply IH.
Qed.

(** The loop that counts the languages, from any entries collected so
    far. *)
Lemma countLanguages_from items languages :
  let counted :=
    fold_left
      (fun languages repo =>
         if Js.truthy (language repo)
         then increment (Js.orElse (language repo) EmptyString) languages
         else languages)
      items languages in
  (forall k, k <> EmptyString ->
             countFor k counted = countFor k languages + occurrences k items)
  /\ (NoDup (map fst languages) -> NoDup (map fst counted))
  /\ (Forall (fun entry => 1 <= snd entry) languages ->
      Forall (fun entry => 1 <= snd entry) counted)
  /\ (~ In EmptyString (map fst languages) ->
      ~ In EmptyString (map fst counted)).
Proof.
  revert languages.
  induction items as [|repo items IH]; intros languages; cbn [fold_left].
  - repeat split; auto. intros k _. unfold occurrences. cbn. lia.
  - cbv zeta in *.
    destruct (language repo) as [[|c l]|] eqn:Hlang; cbn [Js.truthy Js.orElse].
    + destruct (IH languages) as (Hc & Hn & Hf & He).
      repeat split; auto. intros k Hk. rewrite (Hc k Hk).
      unfold occurrences, hasLanguage. cbn [filter]. rewrite Hlang.
      destruct (String.eqb_spec EmptyString k); [congruence|reflexivity].
    + destruct (IH (increment (String c l) languages)) as (Hc & Hn & Hf & He).
      repeat split.
      * intros k Hk. rewrite (Hc k Hk), countFor_increment.
        unfold occurrences, hasLanguage. cbn [filter]. rewrite Hlang.
        destruct (String.eqb_spec (String c l) k) as [<-|Hne];
          cbn [List.length]; lia.
      * intros Hnd. now apply Hn, NoDup_increment.
      * intros Hall. now apply Hf, counts_increment.
      * intros Hnot. apply He. rewrite keys_increment.
        intros [Heq|Hin]; [discriminate|contradiction].
    + destruct (IH languages) as (Hc & Hn & Hf & He).
      repeat split; auto. intros k Hk. rewrite (Hc k Hk).
      unfold occurrences, hasLanguage. cbn [filter]. now rewrite Hlang.
Qed.

(** X2: when the languages of the items are ordinary names, the language
    counts hold one entry per language name that occurs among the items,
    with the number of items of that language as its count; items without
    a language, or with an empty one, are not counted. *)
Theorem language_counts_are_occurrences (items : list GitHubRepo) :
  ordinaryLanguages items ->
  NoDup (map fst (countLanguages items))
  /\ (forall lang count,
        In (lang, count) (countLanguages items) ->
        lang <> EmptyString
        /\ count = occurrences lang items
        /\ 1 <= count)
  /\ (forall lang,
        lang <> EmptyString ->
        countFor lang (countLanguages items) = occurrences lang items)
  /\ (forall lang,
        lang <> EmptyString -> 1 <= occurrences lang items ->
        In (lang, occurrences lang items) (countLanguages items)).
Proof.
  intros _.
  destruct (countLanguages_from items []) as (Hc & Hn & Hf & He).
  cbv zeta in *. fold (countLanguages items) in *.
  assert (Hnd : NoDup (map fst (countLanguages items)))
    by (apply Hn; constructor).
  assert (Hkeys : ~ In EmptyString (map fst (countLanguages items)))
    by (apply He; intros []).
  assert (Hpos : Forall (fun entry => 1 <= snd entry) (countLanguages items))
    by (apply Hf; constructor).
  split; [exact Hnd|]. split; [|split].
  - intros lang count Hin.
    assert (Hlang : lang <> EmptyString).
    { intros ->. apply Hkeys. now apply (in_map fst) in Hin. }
    split; [exact Hlang|]. split.
    + rewrite <- (countFor_In _ _ _ Hnd Hin). rewrite (Hc lang Hlang).
      cbn. lia.
    + rewrite Forall_forall in Hpos. exact (Hpos _ Hin).
  - intros lang Hlang. rewrite (Hc lang Hlang). cbn. lia.
  - intros lang Hlang Hocc.
    specialize (Hc lang Hlang). cbn [countFor] in Hc.
    rewrite Z.add_0_l in Hc. rewrite <- Hc in *.
    clear - Hocc. induction (countLanguages items) as [|[key c] rest IH];
      cbn [countFor] in *; [lia|].
    destruct (String.eqb_spec key lang) as [->|_]; [now left|].
    right. now apply IH.
Qed.

Lemma In_firstn {A} (x : A) n l : In x (firstn n l) -> In x l.
Proof.
  revert l. induction n as [|n IH]; intros [|a l]; cbn; try tauto.
  intros [->|H]; [now left | right; now apply IH].
Qed.

Lemma StronglySorted_firstn {A} (R : A -> A -> Prop) n l :
  StronglySorted R l -> StronglySorted R (firstn n l).
Proof.
  intros Hs. revert n. induction Hs as [|a l Hs IH Ha]; intros [|n]; cbn;
    try constructor; auto.
  rewrite Forall_forall in *. intros x Hx. apply Ha.
  eapply In_firstn; eassumption.
Qed.

Lemma StronglySorted_app_inv {A} (R : A -> A -> Prop) l1 l2 :
  StronglySorted R (l1 ++ l2) ->
  forall x y, In x l1 -> In y l2 -> R x y.
Proof.
  induction l1 as [|a l1 IH]; cbn; intros Hs x y Hx Hy; [contradiction|].
  inversion Hs as [|? ? Hrest Ha]; subst.
  destruct Hx as [->|Hx].
  - rewrite Forall_forall in Ha. apply Ha, in_or_app. now right.
  - eapply IH; eassumption.
Qed.

(** X3: when the languages of the items are ordinary names, the language
    ranking shows at most three of the counted entries, in descending
    order of count; every counted entry left out has a count no larger
    than each entry shown; and with at most three languages all of them
    are shown. *)
Theorem top_languages_are_the_largest (items : list GitHubRepo) :
  ordinaryLanguages items ->
  (List.length (topLanguages items) <= 3)%nat
  /\ StronglySorted byCountDesc (topLanguages items)
  /\ (forall entry, In entry (topLanguages items) ->
                    In entry (countLanguages items))
  /\ (forall entry shown,
        In entry (countLanguages items) ->
        In shown (topLanguages items) ->
        In entry (topLanguages items) \/ snd entry <= snd shown)
  /\ ((List.length (countLanguages items) <= 3)%nat ->
      Permutation (countLanguages items) (topLanguages items)).
Proof.
  intros _. unfold topLanguages.
  set (counted := countLanguages items).
  pose proof (sortByCount_perm counted) as Hperm.
  pose proof (sortByCount_sorted counted) as Hsorted.
  split; [apply firstn_le_length|].
  split; [now apply StronglySorted_firstn|].
  split; [|split].
  - intros entry Hin. apply In_firstn in Hin.
    eapply Permutation_in; [symmetry; exact Hperm|exact Hin].
  - intros entry shown Hentry Hshown.
    apply (Permutation_in _ Hperm) in Hentry.
    rewrite <- (firstn_skipn 3 (sortByCount counted)) in Hentry, Hsorted.
    apply in_app_or in Hentry. destruct Hentry as [Hin|Hout];
      [now left|right].
    exact (StronglySorted_app_inv _ _ _ Hsorted shown entry Hshown Hout).
  - intros Hlen. rewrite firstn_all2; [exact Hperm|].
    now rewrite <- (Permutation_length Hperm).
Qed.

Lemma totalStars_bounds lo hi items :
  Forall (fun repo => lo <= stargazers_count repo <= hi) items ->
  Z.of_nat (List.length items) * lo <= totalStars items
  <= Z.of_nat (List.length items) * hi.
Proof.
  induction 1 as [|repo items Hrepo Hitems IH].
  - unfold totalStars. cbn. lia.
  - rewrite totalStars_cons. cbn [List.length]. lia.
Qed.

(** X4: for a non-empty item list whose star counts are not negative and
    add up to less than 2^52, where the double arithmetic of the source is
    exact, the average printed is the mean of the star counts rounded to
    the nearest integer, so it lies between the smallest and the largest
    star count of the items. *)
Theorem average_stars_within_range (items : list GitHubRepo) (lo hi : Z) :
  items <> [] ->
  0 <= lo ->
  totalStars items < 2 ^ 52 ->
  Forall (fun repo => lo <= stargazers_count repo <= hi) items ->
  let n := Z.of_nat (List.length items) in
  lo <= avgStars items <= hi
  /\ 2 * n * avgStars items <= 2 * totalStars items + n
     < 2 * n * (avgStars items + 1).
Proof.
  intros Hne _ _ Hall n.
  assert (Hn : 0 < n) by (subst n; destruct items; cbn; [congruence|lia]).
  pose proof (totalStars_bounds lo hi items Hall) as Hb. fold n in Hb.
  pose proof (roundDiv_nearest (totalStars items) n Hn) as Hr.
  fold (avgStars items) in Hr. unfold avgStars in *. fold n in Hr |- *.
  split; [|exact Hr]. nia.
Qed.

(** X5: the adoption section and the activity section are empty exactly
    for an empty item list, while the repository listing prints its
    heading even then. *)
Theorem sections_empty_iff_no_items (data : GitHubSearchResponse)
  (currentDate : Z) (technology : string) :
  (_analyzeTechnologyTrends data technology = EmptyString
   <-> items data = [])
  /\ (_analyzeRecentActivity currentDate (items data) technology
      = EmptyString <-> items data = [])
  /\ _formatRepositoryData [] technology
     = "**Top 0 Repositories:**" ++ Js.nl.
Proof.
  split; [|split]; [| |reflexivity];
    destruct data as [count [|repo rest]]; cbn [items];
    (split; [|intros H; try discriminate H; reflexivity]).
  - reflexivity.
  - unfold _analyzeTechnologyTrends. cbn [items List.length Nat.eqb append].
    intros H. discriminate H.
  - reflexivity.
  - unfold _analyzeRecentActivity. cbn [List.length Nat.eqb append].
    intros H. discriminate H.
Qed.

(** X6: for a repository whose [updated_at] is not empty and parses to the
    time [t], "within N days" means that fewer than N + 1 whole days lie
    between [t] and now: the 30-day window reaches to just under 31 days,
    and a time in the future is inside every window. *)
Theorem window_reaches_one_day_further (days currentDate t : Z)
  (repo : GitHubRepo) :
  updated_at repo <> EmptyString ->
  getTime (updated_at repo) = Some t ->
  (withinDays days currentDate repo = true
   <-> currentDate - t < (days + 1) * msPerDay)
  /\ (0 <= days -> currentDate <= t ->
      withinDays days currentDate repo = true).
Proof.
  intros Hne Htime.
  assert (Hday : 0 < msPerDay) by reflexivity.
  assert (Hw : withinDays days currentDate repo
               = ((currentDate - t) / msPerDay <=? days)).
  { unfold withinDays, daysAgo. rewrite Htime.
    destruct (updated_at repo); [congruence|reflexivity]. }
  rewrite Hw, Z.leb_le.
  pose proof (Z.mul_div_le (currentDate - t) msPerDay Hday).
  pose proof (Z.mul_succ_div_gt (currentDate - t) msPerDay Hday).
  generalize dependent msPerDay. intros D HD q. intros. split; [|intros]; nia.
Qed.



Lemma filter_all_true {A} (p : A -> bool) l :
  Forall (fun x => p x = true) l -> filter p l = l.
Proof.
  induction 1 as [|x l Hx Hl IH]; cbn; [reflexivity|].
  now rewrite Hx, IH.
Qed.


(** X8: when every item of a non-empty list was updated within 30 days,
    the activity level is Very Active and the community health reads
    Strong. *)
Theorem all_fresh_items_is_very_active (currentDate : Z)
  (repositories : list GitHubRepo) :
  repositories <> [] ->
  Forall (fun repo => withinDays 30 currentDate repo = true) repositories ->
  veryRecentUpdates currentDate repositories = List.length repositories
  /\ activityLevel currentDate repositories = "Very Active"
  /\ communityHealth (activityLevel currentDate repositories) = "Strong".
Proof.
  intros Hne Hall.
  assert (Hv : veryRecentUpdates currentDate repositories
               = List.length repositories)
    by (rewrite veryRecentUpdates_filter, filter_all_true; auto).
  assert (Hl : activityLevel currentDate repositories = "Very Active").
  { unfold activityLevel, activityLevelOf. rewrite Hv.
    destruct (Qgtb_spec (ratio (List.length repositories)
                               (List.length repositories)) (7 # 10))
      as [_|Hno]; [reflexivity|].
    exfalso. apply Hno. apply ratio_exceeds.
    - destruct repositories; cbn; congruence.
    - destruct repositories; cbn [List.length]; [congruence|lia]. }
  rewrite Hl. repeat split; assumption.
Qed.


Lemma length_append (a b : string) :
  String.length (a ++ b) = (String.length a + String.length b)%nat.
Proof. induction a as [|c a IH]; cbn; [reflexivity | now rewrite IH]. Qed.

Lemma length_prefix n (text : string) :
  String.length (substring 0 n text) = Nat.min n (String.length text).
Proof.
  revert text. induction n as [|n IH]; intros [|c text]; cbn; try reflexivity.
  now rewrite IH.
Qed.

Lemma prefix_splits n (text : string) :
  exists rest, text = substring 0 n text ++ rest.
Proof.
  revert text. induction n as [|n IH]; intros [|c text]; cbn;
    try (eexists; reflexivity).
  destruct (IH text) as (rest & Hrest). exists rest. now rewrite <- Hrest.
Qed.

(** X10: the description printed for a repository is the repository's
    description, or "No description" when it is missing or empty; for a
    description in ASCII, at most 100 characters of it are printed as they
    are, and a longer one is cut to its first 100 characters followed by
    three dots, so the printed text never exceeds 103 characters. *)
Theorem description_is_capped (index : nat) (repo : GitHubRepo) :
  let given := Js.orElse (description repo) "No description" in
  asciiText given ->
  (exists before after,
     formatRepository index repo
     = before ++ "   Description: " ++ displayedDescription repo
         ++ Js.nl ++ after)
  /\ (String.length (displayedDescription repo) <= 103)%nat
  /\ ((String.length given <= 100)%nat -> displayedDescription repo = given)
  /\ ((100 < String.length given)%nat ->
      String.length (displayedDescription repo) = 103%nat
      /\ exists cut,
           given = substring 0 100 given ++ cut
           /\ displayedDescription repo = substring 0 100 given ++ "...")
  /\ (Js.truthy (description repo) = false -> given = "No description").
Proof.
  intros given _.
  split; [|split; [|split; [|split]]].
  - exists ("**" ++ Js.ofNat (index + 1) ++ ". " ++ name repo ++ "** ("
            ++ toLocaleString (stargazers_count repo) ++ " ⭐, "
            ++ toLocaleString (forks_count repo) ++ " 🍴)" ++ Js.nl
            ++ "   Language: " ++ Js.orElse (language repo) "Unknown"
            ++ " | Updated: " ++ substring 0 10 (updated_at repo) ++ Js.nl).
    exists ("   URL: " ++ html_url repo ++ Js.nl ++ Js.nl).
    rewrite !append_assoc. reflexivity.
  - unfold displayedDescription. fold given.
    destruct (Nat.ltb_spec 100 (String.length given)).
    + rewrite length_append, length_prefix. cbn [String.length]. lia.
    + lia.
  - intros Hshort. unfold displayedDescription. fold given.
    destruct (Nat.ltb_spec 100 (String.length given)); [lia|reflexivity].
  - intros Hlong. unfold displayedDescription. fold given.
    destruct (Nat.ltb_spec 100 (String.length given)); [|lia].
    split.
    + rewrite length_append, length_prefix. cbn [String.length]. lia.
    + destruct (prefix_splits 100 given) as (cut & Hcut).
      exists cut. split; [exact Hcut|reflexivity].
  - subst given. destruct (description repo) as [[|c d]|]; cbn;
      congruence.
Qed.

Lemma formatRepositories_app index first rest :
  formatRepositories index (first ++ rest)
  = formatRepositories index first
      ++ formatRepositories (index + List.length first) rest.
Proof.
  revert index. induction first as [|repo first IH]; intros index.
  - cbn. now rewrite Nat.add_0_r.
  - cbn [app formatRepositories List.length]. rewrite IH, append_assoc.
    now rewrite Nat.add_succ_r.
Qed.

(** X11: the listing prints its heading with the number of repositories
    and then one block per repository, in the order given; the block of
    the repository at position [i] (from 0) is numbered [i + 1] and starts
    with its name. *)
Theorem listing_blocks_in_order (before after : list GitHubRepo)
  (repo : GitHubRepo) (technology : string) :
  _formatRepositoryData (before ++ repo :: after) technology
  = "**Top " ++ Js.ofNat (List.length (before ++ repo :: after))
      ++ " Repositories:**" ++ Js.nl
      ++ formatRepositories 0 before
      ++ formatRepository (List.length before) repo
      ++ formatRepositories (S (List.length before)) after
  /\ exists rest,
       formatRepository (List.length before) repo
       = "**" ++ Js.ofNat (List.length before + 1) ++ ". " ++ name repo
           ++ "** (" ++ rest.
Proof.
  split.
  - unfold _formatRepositoryData. rewrite formatRepositories_app.
    cbn [formatRepositories Nat.add]. reflexivity.
  - eexists. reflexivity.
Qed.

End ReportFacts.

(** ** The classifier *)

Section ClassifierFacts.

Context {RT : Runtime}.

Lemma prefix_occurs (needle hay : string) :
  prefix needle hay = true <-> exists after, hay = needle ++ after.
Proof.
  revert hay. induction needle as [|c needle IH]; intros hay.
  - split; [intros _; now exists hay | intros _; now destruct hay].
  - destruct hay as [|d hay]; cbn.
    + split; [discriminate | intros (after & H); discriminate H].
    + destruct (ascii_dec c d) as [->|Hne].
      * rewrite IH. split; intros (after & H); exists after.
        -- now rewrite H.
        -- now injection H.
      * split; [discriminate|]. intros (after & H). injection H. congruence.
Qed.

Lemma includes_prefix (needle hay : string) :
  prefix needle hay = true -> Js.includes hay needle = true.
Proof. intros H. destruct hay; cbn [Js.includes]; rewrite H; reflexivity. Qed.

(** [includes] finds exactly the occurrences. *)
Lemma includes_occurs (hay needle : string) :
  Js.includes hay needle = true <-> occursIn needle hay.
Proof.
  split.
  - induction hay as [|c hay IH]; cbn [Js.includes].
    + rewrite orb_false_r. intros H. apply prefix_occurs in H.
      destruct H as (after & H). now exists EmptyString, after.
    + intros H. apply orb_true_iff in H. destruct H as [H|H].
      * apply prefix_occurs in H. destruct H as (after & H).
        now exists EmptyString, after.
      * destruct (IH H) as (before & after & Heq).
        exists (String c before), after. cbn. now rewrite Heq.
  - intros (before & after & ->).
    induction before as [|c before IH].
    + apply includes_prefix, prefix_occurs. now exists after.
    + cbn [append Js.includes]. rewrite IH. apply orb_true_r.
Qed.

Lemma occursIn_length (needle hay : string) :
  occursIn needle hay -> (String.length needle <= String.length hay)%nat.
Proof.
  intros (before & after & ->). rewrite !length_append. lia.
Qed.

Lemma isTechQuery_iff (query : string) :
  _isTechQuery query = true
  <-> exists indicator,
        In indicator techIndicators
        /\ occursIn indicator (toLowerCase query).
Proof.
  unfold _isTechQuery, Js.some. rewrite existsb_exists.
  split; intros (indicator & Hin & H); exists indicator; split; auto;
    now apply includes_occurs.
Qed.

Lemma indicators_have_two_letters :
  Forall (fun indicator => (2 <= String.length indicator)%nat) techIndicators.
Proof. unfold techIndicators. repeat constructor; cbn; lia. Qed.

Lemma short_query_rejected (query : string) :
  (String.length (toLowerCase query) < 2)%nat -> _isTechQuery query = false.
Proof.
  intros Hshort. destruct (_isTechQuery query) eqn:E; [|reflexivity].
  apply isTechQuery_iff in E. destruct E as (indicator & Hin & Hocc).
  apply occursIn_length in Hocc.
  pose proof indicators_have_two_letters as Hall.
  rewrite Forall_forall in Hall. specialize (Hall _ Hin). lia.
Qed.

(** X12: the classifier accepts a query exactly when one of its 27
    keywords occurs somewhere in the lower-cased query, whatever stands
    before and after it. *)
Theorem classifier_accepts_substrings (query : string) :
  (_isTechQuery query = true
   <-> exists indicator before after,
         In indicator techIndicators
         /\ toLowerCase query = before ++ indicator ++ after)
  /\ List.length techIndicators = 27%nat.
Proof.
  split; [|reflexivity]. rewrite isTechQuery_iff.
  split.
  - intros (indicator & Hin & before & after & H). now exists indicator, before, after.
  - intros (indicator & before & after & Hin & H).
    exists indicator. split; [exact Hin|]. now exists before, after.
Qed.

(** X13: a query whose lower-cased text has fewer than two characters is
    never accepted, the shortest keyword having two. *)
Theorem one_letter_query_rejected (query : string) :
  (String.length (toLowerCase query) < 2)%nat ->
  _isTechQuery query = false.
Proof. apply short_query_rejected. Qed.


End ClassifierFacts.


(** ** The limiter, the search client and the router *)

Section AgentExtras.

Context {RT : Runtime}.
Variable W : World.
Variable manifest : ManifestOptions.

(** X15: [_rateLimit] returns without touching the recorded calls and
    leaves [lastRequestTime] at the time it returns.  When the minimum
    interval since the last request has passed it returns at once, without
    arming a timer; otherwise it arms one timer for the rest of the
    interval and returns when that timer fires, late or early as it may
    be. *)
Theorem rate_limiter_waits_out_the_interval (st : State) :
  exists st',
    _rateLimit W st = (Return tt, st')
    /\ calls st' = calls st
    /\ lastRequestTime st' = clock st'
    /\ (lastRequestTime st + rateLimitDelay <= clock st ->
        clock st' = clock st)
    /\ (clock st < lastRequestTime st + rateLimitDelay ->
        waitTimeAt st = lastRequestTime st + rateLimitDelay - clock st
        /\ clock st'
           = clock st + waitTimeAt st
             + timerLag W (clock st) (waitTimeAt st)).
Proof.
  rewrite rateLimit_eq.
  destruct (Z.gtb_spec (waitTimeAt st) 0) as [Hwait|Hgo];
    eexists; (split; [reflexivity|]);
    cbn [clock lastRequestTime calls];
    unfold waitTimeAt in *; repeat split; intros; lia.
Qed.

(** X16: every run of [_searchGitHub] issues exactly one request, for the
    given term and page size, whether it then returns or throws; the
    request goes out at the time the limiter returned, which is the new
    [lastRequestTime], and the search ends when the request has settled.
    With timers that fire at most [early] before they are due, the request
    is at least the minimum interval less [early] after the previous
    [lastRequestTime]. *)
Theorem search_issues_one_request (technology : string) (maxResults : Z)
  (st : State) :
  exists issued,
    calls (snd (_searchGitHub W technology maxResults st))
    = (calls st ++ [Search issued technology maxResults])%list
    /\ issued = clock (snd (_rateLimit W st))
    /\ lastRequestTime (snd (_searchGitHub W technology maxResults st))
       = issued
    /\ clock (snd (_searchGitHub W technology maxResults st))
       = issued + Z.of_nat (fetchDuration W issued technology maxResults)
    /\ (forall early,
          0 <= early -> timersWithin W early ->
          lastRequestTime st + rateLimitDelay - early <= issued).
Proof.
  destruct (rateLimit_returns W st) as (st1 & Hrl & Hlast & _ & Hwait).
  rewrite searchGitHub_eq. cbv zeta. rewrite Hrl.
  cbn [snd clock lastRequestTime calls].
  exists (clock st1). repeat split; auto.
Qed.

Lemma Return_inj {A} (a b : A) : Return a = Return b -> a = b.
Proof. intros H. now injection H. Qed.

Lemma timeoutMessage_distinct technology :
  noRepositoriesMessage technology <> timeoutMessage technology
  /\ forall now data,
       trendReport now data technology <> timeoutMessage technology.
Proof.
  split.
  - intros H. apply (f_equal String.length) in H.
    unfold noRepositoriesMessage, timeoutMessage, Js.nl in H.
    rewrite !length_append in H. cbn [String.length] in H. lia.
  - intros now data H. unfold trendReport, timeoutMessage in H.
    cbn [append] in H. discriminate H.
Qed.

(** X17: [_searchGitHub] throws exactly the errors of its request that do
    not read as a timeout, and answers the ones that do with the timeout
    notice. *)
Theorem search_rethrows_unless_timeout (technology : string)
  (maxResults : Z) (st : State) :
  let result :=
    fetchResult W (clock (snd (_rateLimit W st))) technology maxResults in
  (forall e,
      fst (_searchGitHub W technology maxResults st) = Throw e
      <-> requestError result = Some e /\ isTimeout e = false)
  /\ (fst (_searchGitHub W technology maxResults st)
      = Return (timeoutMessage technology)
      <-> exists e, requestError result = Some e /\ isTimeout e = true).
Proof.
  cbv zeta. rewrite searchGitHub_eq. cbv zeta. cbn [fst].
  generalize (fetchResult W (clock (snd (_rateLimit W st))) technology
                maxResults).
  generalize (clock (snd (_rateLimit W st))
              + Z.of_nat (fetchDuration W (clock (snd (_rateLimit W st)))
                            technology maxResults)).
  intros settled result. unfold searchCompletion.
  destruct (timeoutMessage_distinct technology) as [Hnone Hreport].
  destruct (requestError result) as [e0|] eqn:Herr.
  - destruct (isTimeout e0) eqn:Ht; split.
    + intros e. split; [intros H; discriminate H|].
      intros [H Hno]. injection H as <-. congruence.
    + split; [intros _; now exists e0 | reflexivity].
    + intros e. split.
      * intros H. injection H as <-. now split.
      * intros [H _]. now injection H as <-.
    + split; [intros H; discriminate H|]. intros (e & H & Hyes).
      injection H as <-. congruence.
  - split.
    + intros e. split; [|intros [H _]; discriminate H].
      destruct result as [?|[? ? [?|? [[|? ?]|]]]]; intros H; discriminate H.
    + split; [|intros (e & H & _); discriminate H].
      destruct result as [?|[? ? [?|? [[|? ?]|]]]];
        intros H; apply Return_inj in H; exfalso;
        first [ now apply Hnone | now apply Hreport in H ].
Qed.

(** X18: when the search answers an accepted query with a status that is
    not ok, [_searchGitHub] throws the error naming the status, without
    reading the body, and the user gets the apology. *)
Theorem http_error_status_is_apologised (event : Event)
  (inEnvelope : Envelope Event) (st : State) (technology : string)
  (response : Response) :
  tokensLength event <> 0%nat ->
  fst (technologyOf event st) = Return technology ->
  _isTechQuery technology = true ->
  fetchResult W (clock (snd (_rateLimit W (classified technology st))))
    technology 5 = Resolved response ->
  ok response = false ->
  fst (_searchGitHub W technology 5 (classified technology st))
  = Throw (Js.newError ("GitHub API error: " ++ Js.ofZ (status response)))
  /\ fst (_handleTechQuery W manifest event inEnvelope st)
     = Return (replyTo manifest inEnvelope apology).
Proof.
  intros Hlen Htech Hyes Hfetch Hok.
  assert (Herr : requestError
                   (fetchResult W
                      (clock (snd (_rateLimit W (classified technology st))))
                      technology 5)
                 = Some (Js.newError
                           ("GitHub API error: " ++ Js.ofZ (status response)))).
  { rewrite Hfetch. unfold requestError. now rewrite Hok. }
  split.
  - rewrite searchGitHub_eq. cbv zeta. cbn [fst].
    unfold searchCompletion. rewrite Herr.
    now rewrite http_error_not_timeout.
  - rewrite (failed_search_reply W manifest event inEnvelope st technology _
               Hlen Htech Hyes Herr).
    now rewrite http_error_not_timeout.
Qed.

(** X19: with timers that fire at most [early] before they are due, if the
    searches recorded so far are each at least the minimum interval less
    [early] after all earlier ones and none is later than
    [lastRequestTime], the same holds after [processEnvelope]: the searches
    of one request, and of requests handled one after another, are at
    least 2000 - [early] ms apart. *)
Theorem searches_of_a_request_are_spaced (early : Z)
  (inEnvelope : Envelope Event) (st : State) :
  0 <= early <= rateLimitDelay ->
  timersWithin W early ->
  pacedBy (rateLimitDelay - early) st ->
  pacedBy (rateLimitDelay - early)
          (snd (processEnvelope W manifest inEnvelope st))
  /\ ForallOrdPairs (fun earlier later => earlier + (2000 - early) <= later)
       (searchTimes (calls (snd (processEnvelope W manifest inEnvelope st)))).
Proof.
  intros Hearly Htimers Hp.
  pose proof (processEnvelope_paced W manifest early inEnvelope st Hearly
                Htimers Hp) as H.
  split; [exact H|]. exact (proj2 H).
Qed.

Lemma handlerText_search technology settled result text :
  searchCompletion technology result settled = Return text ->
  handlerText text.
Proof.
  unfold searchCompletion, handlerText.
  destruct (requestError result) as [e|].
  - destruct (isTimeout e); [|discriminate].
    intros H. apply Return_inj in H. subst text.
    right. right. right. exists technology. now left.
  - destruct result as [?|[? ? [?|count [[|repo rest]|]]]];
      intros H; apply Return_inj in H; subst text;
      right; right; right; exists technology; right;
      try (now left).
    right. now exists settled, count, repo, rest.
Qed.

(** X20: the handler always returns one text utterance, from the agent to
    the sender of the inbound envelope, whatever the event is addressed
    to; its text is the prompt for a technology, the domain-mismatch
    prompt, the apology, the timeout notice, the no-repositories message
    or a report for a non-empty item list. *)
Theorem handler_always_answers_the_sender (event : Event)
  (inEnvelope : Envelope Event) (st : State) :
  exists text st',
    _handleTechQuery W manifest event inEnvelope st
    = (Return (TextUtterance (this_speakerUri manifest) text
                 (sender_speakerUri (sender inEnvelope))), st')
    /\ handlerText text.
Proof.
  unfold _handleTechQuery, tryCatch.
  destruct (Nat.eq_dec (tokensLength event) 0) as [Hzero|Hlen].
  - unfold handleBody. rewrite Hzero. cbn [Nat.eqb]. unfold ret, replyTo.
    eexists _, _. split; [reflexivity|]. now left.
  - destruct (fst (technologyOf event st)) as [technology|e] eqn:Htech.
    + destruct (_isTechQuery technology) eqn:Hq.
      * rewrite (handleBody_searches W manifest _ inEnvelope _ _ Hlen Htech Hq).
        rewrite searchGitHub_eq. cbv zeta. cbn [fst snd].
        destruct (searchCompletion _ _ _) as [text|e] eqn:Hsearch;
          unfold ret, replyTo; eexists _, _; (split; [reflexivity|]).
        -- eapply handlerText_search; eassumption.
        -- right. right. now left.
      * rewrite (handleBody_rejects W manifest _ inEnvelope _ _ Hlen Htech Hq).
        unfold replyTo. eexists _, _. split; [reflexivity|].
        right. now left.
    + rewrite (handleBody_throws W manifest _ inEnvelope _ _ Hlen Htech).
      unfold ret, replyTo. eexists _, _. split; [reflexivity|].
      right. right. now left.
Qed.

Lemma mapTokenValues_nullish elements st :
  In TokenNullish elements ->
  exists e, fst (mapTokenValues elements st) = Throw e.
Proof.
  induction elements as [|[|[value|]] rest IH]; cbn [In mapTokenValues].
  - intros [].
  - intros _. eexists. reflexivity.
  - intros [H|H]; [discriminate|]. destruct (IH H) as (e & He).
    exists e. unfold bind, tokenValue, ret. cbn.
    pose proof (mapTokenValues_state rest st) as Hst.
    destruct (mapTokenValues rest st) as [[values|e'] st']; cbn in *;
      congruence.
  - intros [H|H]; [discriminate|]. destruct (IH H) as (e & He).
    exists e. unfold bind, tokenValue, ret. cbn.
    pose proof (mapTokenValues_state rest st) as Hst.
    destruct (mapTokenValues rest st) as [[values|e'] st']; cbn in *;
      congruence.
Qed.

(** X21: an utterance whose [tokens] has a length but is not an array, or
    is an array with a null or undefined element, is answered with the
    apology; the classifier is not asked and no search is made, the state
    stays as it was. *)
Theorem malformed_tokens_are_apologised (event : Event)
  (inEnvelope : Envelope Event) (st : State) :
  tokensLength event <> 0%nat ->
  malformedTokens event ->
  _handleTechQuery W manifest event inEnvelope st
  = (Return (replyTo manifest inEnvelope apology), st).
Proof.
  intros Hlen Hbad.
  assert (Hthrow : exists e, fst (technologyOf event st) = Throw e).
  { unfold malformedTokens in Hbad. unfold technologyOf.
    destruct (tokensOf event) as [[elements|n]|]; [| |contradiction].
    - destruct (mapTokenValues_nullish elements st Hbad) as (e & He).
      exists e. unfold bind.
      destruct (mapTokenValues elements st) as [[values|e'] st'];
        cbn in *; congruence.
    - eexists. reflexivity. }
  destruct Hthrow as (e & He).
  unfold _handleTechQuery, tryCatch.
  now rewrite (handleBody_throws W manifest _ inEnvelope _ _ Hlen He).
Qed.

Lemma processEvent_unanswerable inEnvelope event st :
  answerable manifest event = false ->
  processEvent W manifest inEnvelope event st = (Return [], st).
Proof.
  unfold answerable, processEvent. intros H.
  destruct (addressedToMe manifest event); [|reflexivity].
  cbn [andb] in *. apply orb_false_iff in H. destruct H as [-> ->].
  reflexivity.
Qed.

Lemma processEvent_answerable inEnvelope event st :
  answerable manifest event = true ->
  exists reply st',
    processEvent W manifest inEnvelope event st = (Return [reply], st').
Proof.
  unfold answerable, processEvent. intros H.
  apply andb_true_iff in H. destruct H as [-> H]. cbn [andb].
  destruct (isUtteranceEvent event).
  - destruct (handleTechQuery_returns W manifest event inEnvelope st)
      as (reply & st' & Hr).
    unfold bind. rewrite Hr. unfold ret. eauto.
  - cbn [orb] in H. rewrite H. unfold ret. eauto.
Qed.

(** X22: an event that is not addressed to the agent, or is neither an
    utterance nor a [getManifests] request, gets no reply and leaves the
    state untouched; every other event gets exactly one reply. *)
Theorem only_answerable_events_are_answered (inEnvelope : Envelope Event)
  (event : Event) (st : State) :
  (answerable manifest event = false
   /\ processEvent W manifest inEnvelope event st = (Return [], st))
  \/ (answerable manifest event = true
      /\ exists reply st',
           processEvent W manifest inEnvelope event st
           = (Return [reply], st')).
Proof.
  destruct (answerable manifest event) eqn:H.
  - right. split; [reflexivity|]. now apply processEvent_answerable.
  - left. split; [reflexivity|]. now apply processEvent_unanswerable.
Qed.

Lemma processEvents_count inEnvelope pending responseEvents st :
  exists replies st',
    processEvents W manifest inEnvelope pending responseEvents st
    = (Return replies, st')
    /\ List.length replies
       = (List.length responseEvents
          + List.length (filter (answerable manifest) pending))%nat
    /\ (filter (answerable manifest) pending = [] ->
        replies = responseEvents /\ st' = st).
Proof.
  revert responseEvents st.
  induction pending as [|event rest IH]; intros responseEvents st.
  - exists responseEvents, st. cbn. repeat split; auto.
  - cbn [processEvents filter]. unfold bind at 1.
    destruct (answerable manifest event) eqn:Hans.
    + destruct (processEvent_answerable inEnvelope event st Hans)
        as (reply & st1 & Hev).
      rewrite Hev.
      destruct (IH (responseEvents ++ [reply])%list st1)
        as (replies & st' & Hrest & Hlen & _).
      exists replies, st'. split; [exact Hrest|]. split.
      * rewrite Hlen, length_app. cbn. lia.
      * discriminate.
    + rewrite (processEvent_unanswerable inEnvelope event st Hans).
      rewrite app_nil_r. apply IH.
Qed.

(** X23: the outbound envelope holds exactly one reply for each event of
    the inbound envelope that is addressed to the agent and is an
    utterance or a [getManifests] request, and is sent in the agent's
    name; when there is no such event it is empty and the state is
    untouched. *)
Theorem one_reply_per_answerable_event (inEnvelope : Envelope Event)
  (st : State) :
  exists outEnvelope st',
    processEnvelope W manifest inEnvelope st = (Return outEnvelope, st')
    /\ List.length (events outEnvelope)
       = List.length (filter (answerable manifest) (events inEnvelope))
    /\ sender outEnvelope
       = mkSender (this_speakerUri manifest) (this_serviceUrl manifest)
    /\ (filter (answerable manifest) (events inEnvelope) = [] ->
        events outEnvelope = [] /\ st' = st).
Proof.
  destruct (processEvents_count inEnvelope (events inEnvelope) [] st)
    as (replies & st' & Hloop & Hlen & Hnone).
  unfold processEnvelope, bind. rewrite Hloop.
  eexists _, st'. split; [reflexivity|]. cbn [events sender].
  split; [exact Hlen|]. split; [reflexivity|exact Hnone].
Qed.

(** X24: the loop over the events composes: processing the events
    [first ++ rest] is processing [first] and then [rest], in the state and
    with the replies [first] left. *)
Theorem events_are_processed_in_sequence (inEnvelope : Envelope Event)
  (first rest : list Event) (responseEvents : list Reply) (st : State) :
  processEvents W manifest inEnvelope (first ++ rest) responseEvents st
  = bind (processEvents W manifest inEnvelope first responseEvents)
         (processEvents W manifest inEnvelope rest) st.
Proof.
  revert responseEvents st.
  induction first as [|event first IH]; intros responseEvents st.
  - reflexivity.
  - cbn [app processEvents]. unfold bind.
    destruct (processEvent W manifest inEnvelope event st)
      as [[pushed|e] st1]; [|reflexivity].
    rewrite IH. unfold bind. reflexivity.
Qed.


End AgentExtras.

(** ** The HTTP endpoint *)

Section ServerFacts.

Context {RT : Runtime}.
Variable W : World.
Variable SERVICE_URL : option string.

(** X26: [POST /] answers a payload that is not valid with status 400
    without running the agent, answers a valid one with status 200 and the
    agent's envelope for the same conversation, and answers with status 500
    only when validation itself throws: nothing the agent does while
    processing a valid envelope reaches the 500 branch. *)
Theorem post_root_statuses (st : State) :
  (forall errors,
      postRoot W SERVICE_URL (Return (Invalid errors)) st
      = (Return (mkHttpResponse 400
                   (InvalidPayload "Invalid OpenFloor payload" errors)), st))
  /\ (forall inEnvelope,
        exists outEnvelope st',
          postRoot W SERVICE_URL (Return (Valid inEnvelope)) st
          = (Return (mkHttpResponse 200 (OpenFloorPayload outEnvelope)), st')
          /\ conversation_id outEnvelope = conversation_id inEnvelope
          /\ schema_version outEnvelope = schema_version inEnvelope
          /\ sender_speakerUri (sender outEnvelope)
             = "tag:openfloor-research.com,2025:github-agent")
  /\ (forall validated,
        exists response st',
          postRoot W SERVICE_URL validated st = (Return response, st')
          /\ (statusCode response = 500 <-> exists e, validated = Throw e)).
Proof.
  assert (Hvalid : forall inEnvelope,
            exists outEnvelope st',
              postRoot W SERVICE_URL (Return (Valid inEnvelope)) st
              = (Return (mkHttpResponse 200 (OpenFloorPayload outEnvelope)),
                 st')
              /\ conversation_id outEnvelope = conversation_id inEnvelope
              /\ schema_version outEnvelope = schema_version inEnvelope
              /\ sender_speakerUri (sender outEnvelope)
                 = "tag:openfloor-research.com,2025:github-agent").
  { intros inEnvelope.
    destruct (processEvents_returns W (githubAgent SERVICE_URL) inEnvelope
                (events inEnvelope) [] st) as (replies & st' & Hloop & _).
    unfold postRoot, tryCatch, processEnvelope, bind. rewrite Hloop.
    unfold ret. eexists _, st'. split; [reflexivity|].
    repeat split. }
  split; [reflexivity|]. split; [exact Hvalid|].
  intros [[errors|inEnvelope]|e].
  - eexists _, _. split; [reflexivity|]. cbn [statusCode].
    split; [discriminate | intros (e & H); discriminate H].
  - destruct (Hvalid inEnvelope) as (out & st' & H & _).
    eexists _, _. split; [exact H|]. cbn [statusCode].
    split; [discriminate | intros (e & He); discriminate He].
  - eexists _, _. split; [reflexivity|]. cbn [statusCode].
    split; [intros _; now exists e | reflexivity].
Qed.

End ServerFacts.

(** ** Callers of the limiter in flight together *)

Section InterleavingExtras.

Import Interleaving.

Ltac run_schedule :=
  unfold exec;
  cbn [fold_left step nth_error callers now last replace];
  unfold resume.

(** X27: callers are not queued.  When a second caller enters the limiter
    while the first is still waiting for the interval to end, both wait
    for the end of that same interval, and once it has ended both are let
    through at the same time. *)
Theorem overlapping_callers_issue_together (entered lastRequest : Z)
  (apart later : nat) :
  entered + Z.of_nat apart < lastRequest + rateLimitDelay ->
  lastRequest + rateLimitDelay <= entered + Z.of_nat apart + Z.of_nat later ->
  let woken := entered + Z.of_nat apart + Z.of_nat later in
  exec [Resume 0; Tick apart; Resume 1; Tick later; Resume 0; Resume 1]
       (mkProcess entered lastRequest [Arriving; Arriving])
  = mkProcess woken woken [Issued woken; Issued woken].
Proof.
  intros Hrunning Hended woken. run_schedule.
  destruct (Z.gtb_spec (rateLimitDelay - (entered - lastRequest)) 0);
    [|lia].
  cbn [fold_left step nth_error callers now last replace]. unfold resume.
  destruct (Z.gtb_spec
              (rateLimitDelay - (entered + Z.of_nat apart - lastRequest)) 0);
    [|lia].
  cbn [fold_left step nth_error callers now last replace]. unfold resume.
  fold woken.
  destruct (Z.leb_spec
              (entered + (rateLimitDelay - (entered - lastRequest))) woken);
    [|lia].
  cbn [fold_left step nth_error callers now last replace]. unfold resume.
  destruct (Z.leb_spec
              (entered + Z.of_nat apart
               + (rateLimitDelay
                  - (entered + Z.of_nat apart - lastRequest))) woken);
    [|lia].
  reflexivity.
Qed.


End InterleavingExtras.

(** ** The further properties on sample inputs *)

Section MoreExamples.

Import Sample MoreSamples.
#[local] Existing Instance EnUs.runtime.


Lemma language_counts_are_occurrences_witness :
  ordinaryLanguages synthetic
  /\ NoDup (map fst (countLanguages synthetic))
  /\ countFor "Go" (countLanguages synthetic) = occurrences "Go" synthetic.
Proof.
  assert (H1 : ordinaryLanguages synthetic)
    by (repeat constructor; right; reflexivity).
  assert (H2 : "Go" <> EmptyString) by discriminate.
  refine (conj H1 _).
  destruct (language_counts_are_occurrences synthetic H1)
    as (Hnodup & _ & Hcount & _).
  exact (conj Hnodup (Hcount "Go" H2)).
Defined.

Lemma top_languages_are_the_largest_witness :
  ordinaryLanguages synthetic
  /\ (List.length (topLanguages synthetic) <= 3)%nat
  /\ StronglySorted byCountDesc (topLanguages synthetic).
Proof.
  assert (H1 : ordinaryLanguages synthetic)
    by (repeat constructor; right; reflexivity).
  refine (conj H1 _).
  destruct (top_languages_are_the_largest synthetic H1)
    as (Hlen & Hsorted & _).
  exact (conj Hlen Hsorted).
Defined.

Lemma average_stars_within_range_witness :
  synthetic <> []
  /\ 0 <= 100
  /\ totalStars synthetic < 2 ^ 52
  /\ Forall (fun repo => 100 <= stargazers_count repo <= 300) synthetic
  /\ 100 <= avgStars synthetic <= 300.
Proof.
  assert (H1 : synthetic <> []) by discriminate.
  assert (H0 : 0 <= 100) by discriminate.
  assert (H52 : totalStars synthetic < 2 ^ 52) by reflexivity.
  assert (H2 : Forall (fun repo => 100 <= stargazers_count repo <= 300)
                 synthetic)
    by (repeat constructor; cbn; lia).
  refine (conj H1 (conj H0 (conj H52 (conj H2 _)))).
  exact (proj1 (average_stars_within_range synthetic 100 300 H1 H0 H52 H2)).
Defined.

Lemma description_is_capped_witness :
  asciiText (Js.orElse (description verbose) "No description")
  /\ String.length (Js.orElse (description verbose) "No description")
     = 121%nat
  /\ (String.length (displayedDescription verbose) <= 103)%nat.
Proof.
  assert (H1 : asciiText (Js.orElse (description verbose) "No description"))
    by (repeat constructor).
  assert (H2 : String.length
                 (Js.orElse (description verbose) "No description")
               = 121%nat) by reflexivity.
  refine (conj H1 (conj H2 _)).
  exact (proj1 (proj2 (description_is_capped 0 verbose H1))).
Defined.

Lemma window_reaches_one_day_further_witness :
  updated_at almost31 <> EmptyString
  /\ getTime (updated_at almost31) = Some 1735650000000
  /\ (withinDays 30 noon almost31 = true
      <-> noon - 1735650000000 < (30 + 1) * msPerDay).
Proof.
  assert (H1 : updated_at almost31 <> EmptyString) by discriminate.
  assert (H2 : getTime (updated_at almost31) = Some 1735650000000)
    by reflexivity.
  refine (conj H1 (conj H2 _)).
  exact (proj1 (window_reaches_one_day_further 30 noon 1735650000000
                  almost31 H1 H2)).
Defined.


Lemma all_fresh_items_is_very_active_witness :
  fresh <> []
  /\ Forall (fun repo => withinDays 30 noon repo = true) fresh
  /\ activityLevel noon fresh = "Very Active".
Proof.
  assert (H1 : fresh <> []) by discriminate.
  assert (H2 : Forall (fun repo => withinDays 30 noon repo = true) fresh)
    by (repeat constructor).
  refine (conj H1 (conj H2 _)).
  exact (proj1 (proj2 (all_fresh_items_is_very_active noon fresh H1 H2))).
Defined.


Lemma one_letter_query_rejected_witness :
  (String.length (toLowerCase "C") < 2)%nat /\ _isTechQuery "C" = false.
Proof.
  assert (H1 : (String.length (toLowerCase "C") < 2)%nat) by (cbn; lia).
  refine (conj H1 _).
  exact (one_letter_query_rejected "C" H1).
Defined.


Lemma http_error_status_is_apologised_witness :
  tokensLength rustQuery <> 0%nat
  /\ fst (technologyOf rustQuery idle) = Return "Rust"
  /\ _isTechQuery "Rust" = true
  /\ fetchResult forbidding
       (clock (snd (_rateLimit forbidding (classified "Rust" idle))))
       "Rust" 5
     = Resolved (mkResponse false 403 (SearchJson 0 None))
  /\ fst (_handleTechQuery forbidding agent rustQuery (envelope [rustQuery])
            idle)
     = Return (replyTo agent (envelope [rustQuery]) apology).
Proof.
  assert (H1 : tokensLength rustQuery <> 0%nat) by discriminate.
  assert (H2 : fst (technologyOf rustQuery idle) = Return "Rust")
    by reflexivity.
  assert (H3 : _isTechQuery "Rust" = true) by reflexivity.
  assert (H4 : fetchResult forbidding
                 (clock (snd (_rateLimit forbidding
                                (classified "Rust" idle))))
                 "Rust" 5
               = Resolved (mkResponse false 403 (SearchJson 0 None)))
    by reflexivity.
  refine (conj H1 (conj H2 (conj H3 (conj H4 _)))).
  exact (proj2 (http_error_status_is_apologised forbidding agent rustQuery
                  (envelope [rustQuery]) idle "Rust" _ H1 H2 H3 H4
                  eq_refl)).
Defined.

Lemma searches_of_a_request_are_spaced_witness :
  0 <= 1 <= rateLimitDelay
  /\ timersWithin earlyTimers 1
  /\ pacedBy (rateLimitDelay - 1) idle
  /\ searchTimes
       (calls (snd (processEnvelope earlyTimers agent
                      (envelope [rustQuery; rustQuery]) idle)))
     = [1738324800000; 1738324801999]
  /\ pacedBy (rateLimitDelay - 1)
       (snd (processEnvelope earlyTimers agent
               (envelope [rustQuery; rustQuery]) idle)).
Proof.
  assert (H1 : 0 <= 1 <= rateLimitDelay) by (unfold rateLimitDelay; lia).
  assert (H2 : timersWithin earlyTimers 1) by (intros armed ms; cbn; lia).
  assert (H3 : pacedBy (rateLimitDelay - 1) idle) by (split; constructor).
  assert (H4 : searchTimes
                 (calls (snd (processEnvelope earlyTimers agent
                                (envelope [rustQuery; rustQuery]) idle)))
               = [1738324800000; 1738324801999]) by (vm_compute; reflexivity).
  refine (conj H1 (conj H2 (conj H3 (conj H4 _)))).
  exact (proj1 (searches_of_a_request_are_spaced earlyTimers agent 1
                  (envelope [rustQuery; rustQuery]) idle H1 H2 H3)).
Defined.

Lemma overlapping_callers_issue_together_witness :
  5000 + Z.of_nat 500 < 4000 + rateLimitDelay
  /\ 4000 + rateLimitDelay <= 5000 + Z.of_nat 500 + Z.of_nat 700
  /\ Interleaving.exec
       [Interleaving.Resume 0; Interleaving.Tick 500; Interleaving.Resume 1;
        Interleaving.Tick 700; Interleaving.Resume 0; Interleaving.Resume 1]
       (Interleaving.mkProcess 5000 4000
          [Interleaving.Arriving; Interleaving.Arriving])
     = Interleaving.mkProcess (5000 + Z.of_nat 500 + Z.of_nat 700)
         (5000 + Z.of_nat 500 + Z.of_nat 700)
         [Interleaving.Issued (5000 + Z.of_nat 500 + Z.of_nat 700);
          Interleaving.Issued (5000 + Z.of_nat 500 + Z.of_nat 700)].
Proof.
  assert (H1 : 5000 + Z.of_nat 500 < 4000 + rateLimitDelay) by reflexivity.
  assert (H2 : 4000 + rateLimitDelay
               <= 5000 + Z.of_nat 500 + Z.of_nat 700)
    by (intros H; discriminate H).
  refine (conj H1 (conj H2 _)).
  exact (overlapping_callers_issue_together 5000 4000 500 700 H1 H2).
Defined.

Lemma malformed_tokens_are_apologised_witness :
  tokensLength nullToken <> 0%nat
  /\ malformedTokens nullToken
  /\ _handleTechQuery refusing agent nullToken (envelope [nullToken]) idle
     = (Return (replyTo agent (envelope [nullToken]) apology), idle).
Proof.
  assert (H1 : tokensLength nullToken <> 0%nat) by discriminate.
  assert (H2 : malformedTokens nullToken) by (right; left; reflexivity).
  refine (conj H1 (conj H2 _)).
  exact (malformed_tokens_are_apologised refusing agent nullToken
           (envelope [nullToken]) idle H1 H2).
Defined.

End MoreExamples.
